(** * Ledger, refund and fee logic of the Open Collective API

    A shallow embedding of [server/lib/payments.js] (fee computation, the fee
    percentage waterfalls, order execution guards, refund construction and
    refund linking) and of the legacy payment-method enum of the GraphQL layer,
    together with the properties proved about them. *)

From Stdlib Require Import ZArith QArith List String DecimalString Bool Lia.
From Stdlib Require Import Permutation Sorted.
From Stdlib Require Import Floats.SpecFloat.
Import ListNotations.

Local Open Scope Z_scope.
Local Open Scope string_scope.
Local Open Scope list_scope.

(* ================================================================== *)
(** ** JavaScript numbers

    A JavaScript number is an IEEE 754 binary64 value.  The operations are the
    ones of [SpecFloat], instantiated at precision 53 and maximal exponent
    1024. *)

Module Float64.

Definition prec : Z := 53.
Definition emax : Z := 1024.

Definition float64 : Type := spec_float.

Definition mul : float64 -> float64 -> float64 := SFmul prec emax.
Definition div : float64 -> float64 -> float64 := SFdiv prec emax.

(** The double nearest to [m * 2^e]; [of_Z n] is the literal [n]. *)
Definition of_scaled (m e : Z) : float64 := binary_normalize prec emax m e false.
Definition of_Z (n : Z) : float64 := of_scaled n 0.

Definition zero : float64 := S754_zero false.

(** The signed mantissa of a finite number. *)
Definition signed (s : bool) (m : positive) : Z :=
  if s then Z.neg m else Z.pos m.

(** The exact rational value of a finite number [(-1)^s * m * 2^e]. *)
Definition value (s : bool) (m : positive) (e : Z) : Q :=
  match e with
  | Z.neg k => Qmake (signed s m) (2 ^ k)
  | _ => inject_Z (signed s m * 2 ^ e)
  end.

(** The exact value of a number that has one, in lowest terms. *)
Definition exact (x : float64) : option Q :=
  match x with
  | S754_zero _ => Some 0%Q
  | S754_finite s m e => Some (Qred (value s m e))
  | S754_infinity _ | S754_nan => None
  end.

(** What [Math.round] yields: an integral number, or its argument when
    that is not finite.  Both zeros are [Integral 0]. *)
Variant rounded : Type :=
  | Integral (n : Z)
  | NotANumber
  | Infinite (negative : bool).

(** [Math.round]: the integer closest to the argument, the larger one when
    two are equally close. *)
Definition Math_round (x : float64) : rounded :=
  match x with
  | S754_zero _ => Integral 0
  | S754_infinity s => Infinite s
  | S754_nan => NotANumber
  | S754_finite s m e =>
      match e with
      | Z.neg k => Integral ((2 * signed s m + Z.pos (2 ^ k)) / (2 * Z.pos (2 ^ k)))
      | _ => Integral (signed s m * 2 ^ e)
      end
  end.

End Float64.

Import Float64.

(* ================================================================== *)
(** ** JavaScript values, objects and completions *)

Module Js.

(** The values that occur in JSON columns and in configuration. *)
#[warnings="-register-all"]
Inductive value : Type :=
  | Undefined
  | Null
  | Boolean (b : bool)
  | Number (x : float64)
  | String (s : string)
  | Object (fields : list (string * value)).

(** A plain object: its own properties, in insertion order. *)
Definition object : Type := list (string * value).

(** lodash [isNumber] on a primitive. *)
Definition isNumber (v : value) : bool :=
  match v with
  | Number _ => true
  | _ => false
  end.

(** [ToBoolean]. *)
Definition truthy (v : value) : bool :=
  match v with
  | Undefined | Null => false
  | Boolean b => b
  | Number (S754_zero _) | Number S754_nan => false
  | Number _ => true
  | String s => negb (String.eqb s EmptyString)
  | Object _ => true
  end.

(** [o[key]]: [undefined] when the object has no such property. *)
Fixpoint get (o : object) (key : string) : value :=
  match o with
  | [] => Undefined
  | (k, v) :: rest => if String.eqb k key then v else get rest key
  end.

(** [o?.key] on a nullable object. *)
Definition optGet (o : option object) (key : string) : value :=
  match o with
  | None => Undefined
  | Some fields => get fields key
  end.

Fixpoint has (o : object) (key : string) : bool :=
  match o with
  | [] => false
  | (k, _) :: rest => String.eqb k key || has rest key
  end.

(** [o[key] = v]: overwrite in place, or append a new property. *)
Fixpoint set (o : object) (key : string) (v : value) : object :=
  match o with
  | [] => [(key, v)]
  | (k, v0) :: rest =>
      if String.eqb k key then (k, v) :: rest else (k, v0) :: set rest key v
  end.

(** [{ ...a, ...b }], either operand possibly [undefined]. *)
Definition spread (a b : option object) : object :=
  fold_left (fun o kv => set o (fst kv) (snd kv))
            (match b with Some fields => fields | None => [] end)
            (match a with Some fields => fields | None => [] end).

(** lodash [omit(o, [key])]; a missing object gives the empty one. *)
Definition omit (o : option object) (key : string) : object :=
  match o with
  | Some fields => filter (fun kv => negb (String.eqb (fst kv) key)) fields
  | None => []
  end.

(** [Array.prototype.find]: [undefined] when nothing satisfies [p]. *)
Definition find (p : value -> bool) (l : list value) : value :=
  match List.find p l with
  | Some v => v
  | None => Undefined
  end.

(** Thrown values. *)
Inductive exn : Type :=
  | Error (message : string)
  | TypeError.

(** How a call completes. *)
Inductive completion (A : Type) : Type :=
  | Return (a : A)
  | Throw (e : exn).

Arguments Return {A} a.
Arguments Throw {A} e.

Definition andThen {A B : Type} (c : completion A) (k : A -> completion B)
  : completion B :=
  match c with
  | Return a => k a
  | Throw e => Throw e
  end.

(** Reading a property of [o]: a [TypeError] when [o] is [null] or
    [undefined]. *)
Definition deref {A : Type} (o : option A) : completion A :=
  match o with
  | Some a => Return a
  | None => Throw TypeError
  end.

End Js.

(** Effectful code: a state transformer that may throw.  A throw keeps the
    state reached so far: nothing in the code rolls database writes back. *)
Definition M (S A : Type) : Type := S -> Js.completion A * S.

Definition ret {S A : Type} (a : A) : M S A := fun s => (Js.Return a, s).

Definition throw {S A : Type} (e : Js.exn) : M S A := fun s => (Js.Throw e, s).

Definition bind {S A B : Type} (c : M S A) (k : A -> M S B) : M S B :=
  fun s =>
    match c s with
    | (Js.Return a, s') => k a s'
    | (Js.Throw e, s') => (Js.Throw e, s')
    end.

Declare Scope effect_scope.
Delimit Scope effect_scope with effect.
Notation "x <- c ;; k" := (bind c (fun x => k))
  (at level 61, c at next level, right associativity) : effect_scope.
Notation "c ;; k" := (bind c (fun _ => k))
  (at level 61, right associativity) : effect_scope.

(* ================================================================== *)
(** ** [calcFee] *)

(** [calcFee(amount, fee)]: [Math.round((amount * fee) / 100)]. *)
Definition calcFee (amount fee : float64) : rounded :=
  Math_round (div (mul amount fee) (of_Z 100)).

(* ================================================================== *)
(** ** Rows the fee and order logic reads *)

(** Primary keys are database serials. *)
Definition Id : Type := positive.

(** A timestamp, as rendered in messages. *)
Definition Date : Type := string.

Module Collective.

(** A [Collectives] row: [data] is a nullable JSON column, the two
    percentages are nullable numeric columns. *)
Record t : Type := {
  id : Id;
  data : option Js.object;
  platformFeePercent : Js.value;
  hostFeePercent : Js.value;
  isHostAccount : bool
}.

End Collective.

Module PaymentMethod.

(** A [PaymentMethods] row; [service] and [type] are nullable strings. *)
Record t : Type := {
  service : option string;
  type : option string;
  paid : bool;
  saved : bool
}.

Definition set_saved (b : bool) (pm : t) : t :=
  {| service := service pm; type := type pm; paid := paid pm; saved := b |}.

(** [pm.service === s] and [pm.type === s] for a string literal [s]. *)
Definition serviceIs (pm : t) (s : string) : bool :=
  match service pm with
  | Some v => String.eqb v s
  | None => false
  end.

Definition typeIs (pm : t) (s : string) : bool :=
  match type pm with
  | Some v => String.eqb v s
  | None => false
  end.

End PaymentMethod.

Module OrderStatus.

(** The members of [constants/order_status] that order execution writes. *)
Inductive t : Type :=
  | NEW
  | PENDING
  | PAID
  | ACTIVE
  | OTHER (name : string).

End OrderStatus.

Module Order.

(** An [Orders] row with the associations [populate] loads.  The processing
    code documents that the order carries its payment method; the collective
    is a mandatory foreign key. *)
Record t : Type := {
  id : Id;
  FromCollectiveId : Id;
  description : string;
  totalAmount : option Z;
  currency : string;
  interval : option string;
  processedAt : option Date;
  status : OrderStatus.t;
  SubscriptionId : option Id;
  data : option Js.object;
  paymentMethod : PaymentMethod.t;
  collective : Collective.t;
  tierId : option Id
}.

(** [order.update({ status, processedAt, data })]. *)
Definition markPaid (at_ : Date) (d : Js.object) (o : t) : t :=
  {| id := id o; FromCollectiveId := FromCollectiveId o;
     description := description o; totalAmount := totalAmount o;
     currency := currency o; interval := interval o;
     processedAt := Some at_; status := OrderStatus.PAID;
     SubscriptionId := SubscriptionId o; data := Some d;
     paymentMethod := paymentMethod o; collective := collective o;
     tierId := tierId o |}.

(** [order.update({ status: ACTIVE, SubscriptionId })]. *)
Definition markActive (subscription : Id) (o : t) : t :=
  {| id := id o; FromCollectiveId := FromCollectiveId o;
     description := description o; totalAmount := totalAmount o;
     currency := currency o; interval := interval o;
     processedAt := processedAt o; status := OrderStatus.ACTIVE;
     SubscriptionId := Some subscription; data := data o;
     paymentMethod := paymentMethod o; collective := collective o;
     tierId := tierId o |}.

(** [order.paymentMethod = pm]. *)
Definition set_paymentMethod (pm : PaymentMethod.t) (o : t) : t :=
  {| id := id o; FromCollectiveId := FromCollectiveId o;
     description := description o; totalAmount := totalAmount o;
     currency := currency o; interval := interval o;
     processedAt := processedAt o; status := status o;
     SubscriptionId := SubscriptionId o; data := data o;
     paymentMethod := pm; collective := collective o;
     tierId := tierId o |}.

End Order.

(** [config.fees.default]. *)
Record FeesDefault : Type := {
  platformPercent : Js.value;
  hostPercent : Js.value
}.

(* ================================================================== *)
(** ** Fee percentage waterfalls *)

Section FeePercent.

(** The configuration, and the answer of the database to
    [collective.getHostCollective()]: a collective may have no host. *)
Variable config_fees_default : FeesDefault.
Variable getHostCollective : Collective.t -> option Collective.t.

(** [host || (await order.collective.getHostCollective())]. *)
Definition hostOrLookup (order : Order.t) (host : option Collective.t)
  : option Collective.t :=
  match host with
  | Some h => Some h
  | None => getHostCollective (Order.collective order)
  end.

Definition isManual (pm : PaymentMethod.t) : bool :=
  PaymentMethod.serviceIs pm "opencollective" && PaymentMethod.typeIs pm "manual".

(** [getPlatformFeePercent(order, host = null)].  Reading [host.data] of a
    missing host is a [TypeError]. *)
Definition getPlatformFeePercent (order : Order.t) (host : option Collective.t)
  : Js.completion Js.value :=
  let pm := Order.paymentMethod order in
  let collective := Order.collective order in
  let possibleValues := [Js.optGet (Order.data order) "platformFeePercent"] in
  Js.andThen
    (if isManual pm then
       let host := hostOrLookup order host in
       let possibleValues :=
         possibleValues
           ++ [Js.optGet (Collective.data collective) "bankTransfersPlatformFeePercent"] in
       Js.andThen (Js.deref host) (fun h =>
       let possibleValues :=
         possibleValues
           ++ [Js.optGet (Collective.data h) "bankTransfersPlatformFeePercent"] in
       Js.Return (possibleValues ++ [Js.Number zero]))
     else Js.Return possibleValues)
    (fun possibleValues =>
  let possibleValues :=
    if PaymentMethod.serviceIs pm "opencollective" then
      if PaymentMethod.typeIs pm "collective" || PaymentMethod.typeIs pm "host"
      then possibleValues ++ [Js.Number zero]
      else possibleValues
    else possibleValues in
  let possibleValues := possibleValues ++ [Collective.platformFeePercent collective] in
  let possibleValues := possibleValues ++ [platformPercent config_fees_default] in
  Js.Return (Js.find Js.isNumber possibleValues)).

(** The two pushes every per-service branch of [getHostFeePercent] makes:
    the collective's setting, then the host's. *)
Definition pushCollectiveThenHost (collective : Collective.t)
  (host : option Collective.t) (key : string) (possibleValues : list Js.value)
  : Js.completion (list Js.value) :=
  let possibleValues := possibleValues ++ [Js.optGet (Collective.data collective) key] in
  Js.andThen (Js.deref host) (fun h =>
  Js.Return (possibleValues ++ [Js.optGet (Collective.data h) key])).

(** [getHostFeePercent(order, host = null)]. *)
Definition getHostFeePercent (order : Order.t) (host : option Collective.t)
  : Js.completion Js.value :=
  let pm := Order.paymentMethod order in
  let collective := Order.collective order in
  let host := hostOrLookup order host in
  if Collective.isHostAccount collective then Js.Return (Js.Number zero)
  else
    let possibleValues := [Js.optGet (Order.data order) "hostFeePercent"] in
    Js.andThen
      (if isManual pm
       then pushCollectiveThenHost collective host "bankTransfersHostFeePercent" possibleValues
       else Js.Return possibleValues)
      (fun possibleValues =>
    let possibleValues :=
      if PaymentMethod.serviceIs pm "opencollective" then
        if PaymentMethod.typeIs pm "collective" || PaymentMethod.typeIs pm "host"
        then possibleValues ++ [Js.Number zero]
        else possibleValues
      else possibleValues in
    Js.andThen
      (if PaymentMethod.serviceIs pm "stripe"
       then pushCollectiveThenHost collective host "creditCardHostFeePercent" possibleValues
       else Js.Return possibleValues)
      (fun possibleValues =>
    Js.andThen
      (if PaymentMethod.serviceIs pm "paypal"
       then pushCollectiveThenHost collective host "paypalHostFeePercent" possibleValues
       else Js.Return possibleValues)
      (fun possibleValues =>
    let possibleValues := possibleValues ++ [Collective.hostFeePercent collective] in
    let possibleValues := possibleValues ++ [hostPercent config_fees_default] in
    Js.Return (Js.find Js.isNumber possibleValues)))).

End FeePercent.

(* ================================================================== *)
(** ** The ledger *)

Module User.

Record t : Type := {
  id : Id;
  email : string
}.

End User.

Module TransactionType.

Inductive t : Type :=
  | CREDIT
  | DEBIT.

Definition eqb (a b : t) : bool :=
  match a, b with
  | CREDIT, CREDIT | DEBIT, DEBIT => true
  | _, _ => false
  end.

End TransactionType.

Module Transaction.

(** A [Transactions] row.  Amounts and fees are integer columns (cents). *)
Record t : Type := {
  id : Id;
  type : TransactionType.t;
  TransactionGroup : string;
  RefundTransactionId : option Id;
  CreatedByUserId : option Id;
  description : string;
  amount : Z;
  amountInHostCurrency : Z;
  netAmountInCollectiveCurrency : Z;
  hostFeeInHostCurrency : Z;
  platformFeeInHostCurrency : Z;
  paymentProcessorFeeInHostCurrency : Z;
  currency : string;
  hostCurrency : string;
  hostCurrencyFxRate : float64;
  FromCollectiveId : option Id;
  CollectiveId : option Id;
  HostCollectiveId : option Id;
  PaymentMethodId : option Id;
  OrderId : option Id;
  ExpenseId : option Id;
  UsingGiftCardFromCollectiveId : option Id;
  kind : option string;
  data : option Js.object;
  isRefund : bool
}.

(** [t.data = d]. *)
Definition set_data (d : option Js.object) (r : t) : t :=
  {| id := id r; type := type r; TransactionGroup := TransactionGroup r;
     RefundTransactionId := RefundTransactionId r;
     CreatedByUserId := CreatedByUserId r; description := description r;
     amount := amount r; amountInHostCurrency := amountInHostCurrency r;
     netAmountInCollectiveCurrency := netAmountInCollectiveCurrency r;
     hostFeeInHostCurrency := hostFeeInHostCurrency r;
     platformFeeInHostCurrency := platformFeeInHostCurrency r;
     paymentProcessorFeeInHostCurrency := paymentProcessorFeeInHostCurrency r;
     currency := currency r; hostCurrency := hostCurrency r;
     hostCurrencyFxRate := hostCurrencyFxRate r;
     FromCollectiveId := FromCollectiveId r; CollectiveId := CollectiveId r;
     HostCollectiveId := HostCollectiveId r; PaymentMethodId := PaymentMethodId r;
     OrderId := OrderId r; ExpenseId := ExpenseId r;
     UsingGiftCardFromCollectiveId := UsingGiftCardFromCollectiveId r;
     kind := kind r; data := d; isRefund := isRefund r |}.

(** [t.RefundTransactionId = i]. *)
Definition set_RefundTransactionId (i : Id) (r : t) : t :=
  {| id := id r; type := type r; TransactionGroup := TransactionGroup r;
     RefundTransactionId := Some i;
     CreatedByUserId := CreatedByUserId r; description := description r;
     amount := amount r; amountInHostCurrency := amountInHostCurrency r;
     netAmountInCollectiveCurrency := netAmountInCollectiveCurrency r;
     hostFeeInHostCurrency := hostFeeInHostCurrency r;
     platformFeeInHostCurrency := platformFeeInHostCurrency r;
     paymentProcessorFeeInHostCurrency := paymentProcessorFeeInHostCurrency r;
     currency := currency r; hostCurrency := hostCurrency r;
     hostCurrencyFxRate := hostCurrencyFxRate r;
     FromCollectiveId := FromCollectiveId r; CollectiveId := CollectiveId r;
     HostCollectiveId := HostCollectiveId r; PaymentMethodId := PaymentMethodId r;
     OrderId := OrderId r; ExpenseId := ExpenseId r;
     UsingGiftCardFromCollectiveId := UsingGiftCardFromCollectiveId r;
     kind := kind r; data := data r; isRefund := isRefund r |}.

End Transaction.

Module RefundEntry.

(** The object [buildRefund] makes and hands to
    [models.Transaction.createDoubleEntry]. *)
Record t : Type := {
  currency : string;
  FromCollectiveId : option Id;
  CollectiveId : option Id;
  HostCollectiveId : option Id;
  PaymentMethodId : option Id;
  OrderId : option Id;
  ExpenseId : option Id;
  hostCurrencyFxRate : float64;
  hostCurrency : string;
  hostFeeInHostCurrency : Z;
  platformFeeInHostCurrency : Z;
  paymentProcessorFeeInHostCurrency : Z;
  kind : option string;
  CreatedByUserId : option Id;
  description : string;
  data : Js.object;
  amount : Z;
  amountInHostCurrency : Z;
  netAmountInCollectiveCurrency : Z;
  isRefund : bool
}.

End RefundEntry.

(** What happened to the [Transactions] table, in order. *)
Inductive LedgerEvent : Type :=
  | CreateDoubleEntry (values : RefundEntry.t)
  | Save (row : Id).

(** The [Transactions] table and the journal of writes made to it. *)
Record Ledger : Type := {
  rows : list Transaction.t;
  journal : list LedgerEvent
}.

(** Rows ordered by [id] ([order: ['id']]). *)
Fixpoint insertById (r : Transaction.t) (l : list Transaction.t) : list Transaction.t :=
  match l with
  | [] => [r]
  | x :: rest =>
      if (Transaction.id r <=? Transaction.id x)%positive
      then r :: l
      else x :: insertById r rest
  end.

Fixpoint orderById (l : list Transaction.t) : list Transaction.t :=
  match l with
  | [] => []
  | x :: rest => insertById x (orderById rest)
  end.

(** The order of that query. *)
Definition byId (r x : Transaction.t) : Prop :=
  (Transaction.id r <= Transaction.id x)%positive.

(** [instance.save()]: the row with the instance's primary key takes the
    instance's values. *)
Definition replaceRow (r : Transaction.t) (l : list Transaction.t)
  : list Transaction.t :=
  map (fun x => if (Transaction.id x =? Transaction.id r)%positive then r else x) l.

Definition save (r : Transaction.t) : M Ledger unit :=
  fun w =>
    (Js.Return tt,
     {| rows := replaceRow r (rows w);
        journal := journal w ++ [Save (Transaction.id r)] |}).

(* ================================================================== *)
(** ** Refunds *)

(** The character that delimits the quoted description. *)
Definition quote : string := String (Ascii.ascii_of_nat 34) EmptyString.

Section Refunds.

Local Open Scope effect_scope.

(** Code of the repository these functions call: [netAmount] of
    [lib/transactions], [models.Transaction.createDoubleEntry] (it inserts the
    rows of the new group and yields one of them) and the model method
    [getPlatformTipTransaction] (a lookup that may find nothing). *)
Variable netAmount : Transaction.t -> Z.
Variable createDoubleEntry :
  RefundEntry.t -> list Transaction.t -> Js.completion Transaction.t * list Transaction.t.
Variable getPlatformTipTransaction :
  Transaction.t -> list Transaction.t -> option Transaction.t.

Definition Transaction_createDoubleEntry (values : RefundEntry.t)
  : M Ledger Transaction.t :=
  fun w =>
    let (created, rows') := createDoubleEntry values (rows w) in
    (created, {| rows := rows'; journal := journal w ++ [CreateDoubleEntry values] |}).

(** [findAll({ order: ['id'], where: { [Op.or]: [{ TransactionGroup: g1 },
    { TransactionGroup: g2 }] } })]. *)
Definition findAllOfGroups (g1 g2 : string) (l : list Transaction.t)
  : list Transaction.t :=
  orderById
    (filter (fun x => String.eqb (Transaction.TransactionGroup x) g1
                      || String.eqb (Transaction.TransactionGroup x) g2) l).

(** [findOne({ where: { TransactionGroup, id: { [Op.ne]: transaction.id } } })]. *)
Definition findOtherOfGroup (transaction : Transaction.t) (l : list Transaction.t)
  : option Transaction.t :=
  List.find
    (fun x => String.eqb (Transaction.TransactionGroup x)
                         (Transaction.TransactionGroup transaction)
              && negb (Transaction.id x =? Transaction.id transaction)%positive) l.

(** [find([tr1, tr2, tr3, tr4], { id })]. *)
Definition findById (i : Id) (l : list Transaction.t) : option Transaction.t :=
  List.find (fun x => (Transaction.id x =? i)%positive) l.

(** [associateTransactionRefundId(transaction, refund, data)].  The array
    pattern binds the first four rows found; with fewer, a row variable is
    [undefined] and the first assignment through it is a [TypeError], before
    anything is saved. *)
Definition associateTransactionRefundId (transaction refund : Transaction.t)
  (data : option Js.object) : M Ledger (option Transaction.t) :=
  fun w =>
    match findAllOfGroups (Transaction.TransactionGroup transaction)
                          (Transaction.TransactionGroup refund) (rows w) with
    | tr1 :: tr2 :: tr3 :: tr4 :: _ =>
        let tr1 := match data with
                   | Some _ => Transaction.set_data data tr1
                   | None => tr1
                   end in
        let tr2 := match data with
                   | Some _ => Transaction.set_data data tr2
                   | None => tr2
                   end in
        (let tr1 := Transaction.set_RefundTransactionId (Transaction.id tr4) tr1 in
         save tr1 ;;
         let tr2 := Transaction.set_RefundTransactionId (Transaction.id tr3) tr2 in
         save tr2 ;;
         let tr3 := Transaction.set_RefundTransactionId (Transaction.id tr2) tr3 in
         save tr3 ;;
         let tr4 := Transaction.set_RefundTransactionId (Transaction.id tr1) tr4 in
         save tr4 ;;
         ret (findById (Transaction.id transaction) [tr1; tr2; tr3; tr4])) w
    | _ => (Js.Throw Js.TypeError, w)
    end.

(** [pick(t, [..., 'data.isFeesOnTop', ...]).data]: present only when the
    path exists in [t]. *)
Definition pickIsFeesOnTop (t : Transaction.t) : option Js.object :=
  match Transaction.data t with
  | Some o =>
      if Js.has o "isFeesOnTop"
      then Some [("isFeesOnTop", Js.get o "isFeesOnTop")]
      else None
  | None => None
  end.

(** The closure [buildRefund] of [createRefundTransaction]. *)
Definition buildRefund (refundedPaymentProcessorFee : Z) (data : option Js.object)
  (user : option User.t) (t : Transaction.t) : RefundEntry.t :=
  let hostFeeInHostCurrency := - Transaction.hostFeeInHostCurrency t in
  let platformFeeInHostCurrency := - Transaction.platformFeeInHostCurrency t in
  let paymentProcessorFeeInHostCurrency :=
    - Transaction.paymentProcessorFeeInHostCurrency t in
  let hostFeeInHostCurrency :=
    if (refundedPaymentProcessorFee =? 0)%Z
    then hostFeeInHostCurrency + paymentProcessorFeeInHostCurrency
    else hostFeeInHostCurrency in
  let paymentProcessorFeeInHostCurrency :=
    if (refundedPaymentProcessorFee =? 0)%Z then 0 else paymentProcessorFeeInHostCurrency in
  {| RefundEntry.currency := Transaction.currency t;
     RefundEntry.FromCollectiveId := Transaction.FromCollectiveId t;
     RefundEntry.CollectiveId := Transaction.CollectiveId t;
     RefundEntry.HostCollectiveId := Transaction.HostCollectiveId t;
     RefundEntry.PaymentMethodId := Transaction.PaymentMethodId t;
     RefundEntry.OrderId := Transaction.OrderId t;
     RefundEntry.ExpenseId := Transaction.ExpenseId t;
     RefundEntry.hostCurrencyFxRate := Transaction.hostCurrencyFxRate t;
     RefundEntry.hostCurrency := Transaction.hostCurrency t;
     RefundEntry.hostFeeInHostCurrency := hostFeeInHostCurrency;
     RefundEntry.platformFeeInHostCurrency := platformFeeInHostCurrency;
     RefundEntry.paymentProcessorFeeInHostCurrency := paymentProcessorFeeInHostCurrency;
     RefundEntry.kind := Transaction.kind t;
     RefundEntry.CreatedByUserId := option_map User.id user;
     RefundEntry.description :=
       ("Refund of " ++ quote ++ Transaction.description t ++ quote)%string;
     RefundEntry.data := Js.spread (pickIsFeesOnTop t) data;
     RefundEntry.amount := - Transaction.amount t;
     RefundEntry.amountInHostCurrency := - Transaction.amountInHostCurrency t;
     RefundEntry.netAmountInCollectiveCurrency := - netAmount t;
     RefundEntry.isRefund := true |}.

(** The transaction seen from the collective: the one received when it is a
    CREDIT, otherwise the other row of its group. *)
Definition findCreditTransaction (transaction : Transaction.t)
  (l : list Transaction.t) : option Transaction.t :=
  if TransactionType.eqb (Transaction.type transaction) TransactionType.CREDIT
  then Some transaction
  else findOtherOfGroup transaction l.

(** The guards of [createRefundTransaction] followed by
    [buildRefund(creditTransaction)]. *)
Definition creditTransactionRefund (transaction : Transaction.t)
  (refundedPaymentProcessorFee : Z) (data : option Js.object)
  (user : option User.t) : M Ledger RefundEntry.t :=
  fun w =>
    match findCreditTransaction transaction (rows w) with
    | None => throw (Js.Error "Cannot find any CREDIT transaction to refund") w
    | Some creditTransaction =>
        match Transaction.RefundTransactionId creditTransaction with
        | Some _ => throw (Js.Error "This transaction has already been refunded") w
        | None => ret (buildRefund refundedPaymentProcessorFee data user creditTransaction) w
        end
    end.

(** [createRefundTransaction(transaction, refundedPaymentProcessorFee, data,
    user)]. *)
Definition createRefundTransaction (transaction : Transaction.t)
  (refundedPaymentProcessorFee : Z) (data : option Js.object)
  (user : option User.t) : M Ledger (option Transaction.t) :=
  creditTransactionRefund <-
    creditTransactionRefund transaction refundedPaymentProcessorFee data user ;;
  (if Js.truthy (Js.optGet (Transaction.data transaction) "isFeesOnTop") then
     fun w =>
       match getPlatformTipTransaction transaction (rows w) with
       | None => throw Js.TypeError w
       | Some feeOnTopTransaction =>
           (let feeOnTopRefund :=
              buildRefund refundedPaymentProcessorFee data user feeOnTopTransaction in
            feeOnTopRefundTransaction <- Transaction_createDoubleEntry feeOnTopRefund ;;
            associateTransactionRefundId feeOnTopTransaction feeOnTopRefundTransaction data ;;
            ret tt) w
       end
   else ret tt) ;;
  refundTransaction <- Transaction_createDoubleEntry creditTransactionRefund ;;
  associateTransactionRefundId transaction refundTransaction data.

End Refunds.

(* ================================================================== *)
(** ** Executing an order *)

(** [{ amount, interval, currency }]. *)
Record Payment : Type := {
  payment_amount : option Z;
  payment_interval : option string;
  payment_currency : string
}.

(** [validatePayment(payment)]. *)
Definition validatePayment (payment : Payment) : Js.completion unit :=
  let intervalRejected :=
    match payment_interval payment with
    | Some i =>
        negb (String.eqb i EmptyString)
        && negb (String.eqb i "month" || String.eqb i "year")
    | None => false
    end in
  if intervalRejected then Js.Throw (Js.Error "Interval should be null, month or year.")
  else
    let amountMissing :=
      match payment_amount payment with
      | Some a => (a =? 0)%Z
      | None => true
      end in
    if amountMissing then Js.Throw (Js.Error "payment.amount missing")
    else Js.Return tt.

(** A value passed where a model instance is expected. *)
Inductive argument (A : Type) : Type :=
  | Instance (a : A)
  | NotAnInstance.

Arguments Instance {A} a.
Arguments NotAnInstance {A}.

Definition decimal (i : Id) : string :=
  DecimalString.NilZero.string_of_uint (Pos.to_uint i).

Section OrderExecution.

Local Open Scope effect_scope.

(** Everything outside the order row: the payment providers' side, the other
    tables, the outgoing mail. *)
Variable Env : Type.
Variable Options : Type.

(** A payment provider module: [features.waitToCharge] and [processOrder],
    which charges and yields the transaction it recorded, if any. *)
Record Provider : Type := {
  waitToCharge : bool;
  provider_processOrder : Order.t -> Options -> M Env (option Transaction.t)
}.

(** [paymentProviders[service].types[type]]. *)
Variable paymentProviders : string -> option (string -> option Provider).

(** The rest of the repository, as order execution uses it. *)
Variable populate : Order.t -> M Env unit.
Variable validatePlanRequest : Order.t -> M Env unit.
Variable now : Env -> Date.
Variable findOrAddUserWithRole :
  forall (collective user memberCollective : Id) (tier : option Id), M Env unit.
Variable platformCollectiveId : Id.
Variable subscribeOrUpgradePlan : Order.t -> M Env unit.
Variable isPrepaidBudgetOrder : Order.t -> bool.
Variable createPrepaidPaymentMethod : Transaction.t -> M Env unit.
Variable savePaymentMethod : PaymentMethod.t -> Env -> Env.
Variable sendOrderConfirmedEmail : Order.t -> Transaction.t -> Env -> Env.
Variable sendOrderProcessingEmail : Order.t -> Env -> Env.
Variable sendManualPendingOrderEmail : Order.t -> Env -> Env.
Variable Subscription_create : Order.t -> M Env Id.

(** The order instance being executed, and the environment. *)
Record Exec : Type := {
  order : Order.t;
  env : Env
}.

Definition inEnv {A : Type} (c : M Env A) : M Exec A :=
  fun s =>
    let (r, e) := c (env s) in
    (r, {| order := order s; env := e |}).

Definition detached (f : Env -> Env) : M Exec unit :=
  fun s => (Js.Return tt, {| order := order s; env := f (env s) |}).

Definition getOrder : M Exec Order.t := fun s => (Js.Return (order s), s).

Definition updateOrder (f : Order.t -> Order.t) : M Exec unit :=
  fun s => (Js.Return tt, {| order := f (order s); env := env s |}).

Definition when {S : Type} (b : bool) (c : M S unit) : M S unit :=
  if b then c else ret tt.

(** [findPaymentMethodProvider(paymentMethod)]. *)
Definition findPaymentMethodProvider (paymentMethod : PaymentMethod.t)
  : Js.completion Provider :=
  let orDefault (v : option string) (d : string) :=
    match v with
    | Some x => if String.eqb x EmptyString then d else x
    | None => d
    end in
  let provider := orDefault (PaymentMethod.service paymentMethod) "opencollective" in
  let methodType := orDefault (PaymentMethod.type paymentMethod) "default" in
  match paymentProviders provider with
  | None => Js.Throw (Js.Error ("No payment provider found for " ++ provider)%string)
  | Some types =>
      match types methodType with
      | None =>
          Js.Throw (Js.Error ("No payment provider found for " ++ provider
                                ++ ":" ++ methodType)%string)
      | Some paymentMethodProvider => Js.Return paymentMethodProvider
      end
  end.

(** [processOrder(order, options)]. *)
Definition processOrder (o : Order.t) (options : Options)
  : M Env (option Transaction.t) :=
  match findPaymentMethodProvider (Order.paymentMethod o) with
  | Js.Throw e => throw e
  | Js.Return paymentMethodProvider =>
      if waitToCharge paymentMethodProvider
         && negb (PaymentMethod.paid (Order.paymentMethod o))
      then ret None
      else provider_processOrder paymentMethodProvider o options
  end.

(** [sendEmailNotifications(order, transaction)]: the mails are sent without
    being awaited. *)
Definition sendEmailNotifications (o : Order.t) (transaction : option Transaction.t)
  : M Exec unit :=
  match transaction with
  | Some t => detached (sendOrderConfirmedEmail o t)
  | None =>
      match Order.status o with
      | OrderStatus.PENDING =>
          detached (sendOrderProcessingEmail o) ;;
          detached (sendManualPendingOrderEmail o)
      | _ => ret tt
      end
  end.

(** [createSubscription(order)]. *)
Definition createSubscription : M Exec unit :=
  o <- getOrder ;;
  subscription <- inEnv (Subscription_create o) ;;
  updateOrder (Order.markActive subscription).

Definition isSome {A : Type} (o : option A) : bool :=
  match o with
  | Some _ => true
  | None => false
  end.

(** The body of [executeOrder] once both arguments are model instances. *)
Definition executeOrderOf (user : User.t) (options : Options) : M Exec unit :=
  o <- getOrder ;;
  match Order.processedAt o with
  | Some at_ =>
      throw (Js.Error ("This order (#" ++ decimal (Order.id o)
                         ++ ") has already been processed at " ++ at_)%string)
  | None =>
      let payment :=
        {| payment_amount := Order.totalAmount o;
           payment_interval := Order.interval o;
           payment_currency := Order.currency o |} in
      match validatePayment payment with
      | Js.Throw error => throw error
      | Js.Return _ =>
          inEnv (populate o) ;;
          inEnv (validatePlanRequest o) ;;
          transaction <- inEnv (processOrder o options) ;;
          match transaction with
          | Some t =>
              (fun s => updateOrder
                          (Order.markPaid (now (env s))
                                          (Js.omit (Order.data o) "paymentIntent")) s) ;;
              inEnv (findOrAddUserWithRole (Collective.id (Order.collective o))
                       (User.id user) (Order.FromCollectiveId o) (Order.tierId o)) ;;
              o1 <- getOrder ;;
              when (Js.truthy (Js.optGet (Order.data o1) "isFeesOnTop")
                    && Js.truthy (Js.optGet (Order.data o1) "platformFee"))
                   (inEnv (findOrAddUserWithRole platformCollectiveId
                             (User.id user) (Order.FromCollectiveId o1) None)) ;;
              inEnv (subscribeOrUpgradePlan o1) ;;
              when (isPrepaidBudgetOrder o1) (inEnv (createPrepaidPaymentMethod t))
          | None => ret tt
          end ;;
          o2 <- getOrder ;;
          when (Js.truthy (Js.optGet (Order.data o2) "savePaymentMethod"))
               (let pm := PaymentMethod.set_saved true (Order.paymentMethod o2) in
                updateOrder (Order.set_paymentMethod pm) ;;
                detached (savePaymentMethod pm)) ;;
          o3 <- getOrder ;;
          sendEmailNotifications o3 transaction ;;
          match transaction with
          | Some t =>
              match Transaction.UsingGiftCardFromCollectiveId t with
              | Some giftCardCollective =>
                  inEnv (findOrAddUserWithRole (Collective.id (Order.collective o3))
                           (User.id user) giftCardCollective (Order.tierId o3))
              | None => ret tt
              end
          | None => ret tt
          end ;;
          when (Js.truthy (match Order.interval o3 with
                           | Some i => Js.String i
                           | None => Js.Null
                           end)
                && isSome transaction)
               createSubscription
      end
  end.

(** [executeOrder(user, order, options)]: the promise it returns, as a
    completion ([Throw] for a rejection), the order instance and the
    environment afterwards. *)
Definition executeOrder (user : argument User.t) (o : argument Order.t)
  (options : Options) (e : Env) : Js.completion unit * argument Order.t * Env :=
  match user with
  | NotAnInstance =>
      (Js.Throw (Js.Error "user should be an instance of the User model"), o, e)
  | Instance u =>
      match o with
      | NotAnInstance =>
          (Js.Throw (Js.Error "order should be an instance of the Order model"), o, e)
      | Instance ord =>
          let (r, s) := executeOrderOf u options {| order := ord; env := e |} in
          (r, Instance (order s), env s)
      end
  end.

End OrderExecution.

(* ================================================================== *)
(** ** Legacy payment method types (GraphQL enum) *)

Module LegacyPaymentMethod.

(** [PAYMENT_METHOD_SERVICE]: the members the conversion mentions, and any
    other member of the enum. *)
Inductive PAYMENT_METHOD_SERVICE : Type :=
  | SERVICE_STRIPE
  | SERVICE_OPENCOLLECTIVE
  | SERVICE_BRAINTREE
  | SERVICE_PAYPAL
  | SERVICE_OTHER (member : string).

(** [PAYMENT_METHOD_TYPE]: the members the conversion mentions, and any other
    member of the enum. *)
Inductive PAYMENT_METHOD_TYPE : Type :=
  | TYPE_CREDITCARD
  | TYPE_GIFT_CARD
  | TYPE_HOST
  | TYPE_COLLECTIVE
  | TYPE_PREPAID
  | TYPE_PAYPAL
  | TYPE_PAYMENT
  | TYPE_MANUAL
  | TYPE_OTHER (member : string).

Inductive PaymentMethodLegacyTypeEnum : Type :=
  | CREDIT_CARD
  | GIFT_CARD
  | PREPAID_BUDGET
  | ACCOUNT_BALANCE
  | PAYPAL
  | BRAINTREE_PAYPAL
  | BANK_TRANSFER
  | ADDED_FUNDS.

Record ServiceTypePair : Type := {
  service : PAYMENT_METHOD_SERVICE;
  type : PAYMENT_METHOD_TYPE
}.

(** [getLegacyPaymentMethodType]; [None] is the [undefined] the function
    yields after logging its warning. *)
Definition getLegacyPaymentMethodType (pm : ServiceTypePair)
  : option PaymentMethodLegacyTypeEnum :=
  match service pm with
  | SERVICE_STRIPE =>
      match type pm with
      | TYPE_CREDITCARD => Some CREDIT_CARD
      | _ => None
      end
  | SERVICE_OPENCOLLECTIVE =>
      match type pm with
      | TYPE_GIFT_CARD => Some GIFT_CARD
      | TYPE_HOST => Some ADDED_FUNDS
      | TYPE_COLLECTIVE => Some ACCOUNT_BALANCE
      | TYPE_PREPAID => Some PREPAID_BUDGET
      | _ => None
      end
  | SERVICE_BRAINTREE =>
      match type pm with
      | TYPE_PAYPAL => Some BRAINTREE_PAYPAL
      | _ => None
      end
  | SERVICE_PAYPAL =>
      match type pm with
      | TYPE_PAYMENT => Some PAYPAL
      | _ => None
      end
  | SERVICE_OTHER _ => None
  end.

Definition getServiceTypeFromLegacyPaymentMethodType
  (t : PaymentMethodLegacyTypeEnum) : ServiceTypePair :=
  match t with
  | CREDIT_CARD => {| service := SERVICE_STRIPE; type := TYPE_CREDITCARD |}
  | GIFT_CARD => {| service := SERVICE_OPENCOLLECTIVE; type := TYPE_GIFT_CARD |}
  | PREPAID_BUDGET => {| service := SERVICE_OPENCOLLECTIVE; type := TYPE_PREPAID |}
  | ACCOUNT_BALANCE => {| service := SERVICE_OPENCOLLECTIVE; type := TYPE_COLLECTIVE |}
  | ADDED_FUNDS => {| service := SERVICE_OPENCOLLECTIVE; type := TYPE_HOST |}
  | BANK_TRANSFER => {| service := SERVICE_OPENCOLLECTIVE; type := TYPE_MANUAL |}
  | PAYPAL => {| service := SERVICE_PAYPAL; type := TYPE_PAYMENT |}
  | BRAINTREE_PAYPAL => {| service := SERVICE_BRAINTREE; type := TYPE_PAYPAL |}
  end.

End LegacyPaymentMethod.

(* ================================================================== *)
(** ** The precedence of platform fee percentages, as documented *)

(** The first value of a list that is a number; [undefined] when none is. *)
Fixpoint firstNumber (l : list Js.value) : Js.value :=
  match l with
  | [] => Js.Undefined
  | Js.Number x :: _ => Js.Number x
  | _ :: rest => firstNumber rest
  end.

(** The kinds of payment method the fee rules distinguish: bank transfers
    (opencollective/manual), payments from the balance of a collective or of
    a host (opencollective/collective, opencollective/host), anything else. *)
Inductive PaymentKind : Type :=
  | BankTransfer
  | FromBalance
  | AnyOther.

Definition paymentKind (pm : PaymentMethod.t) : PaymentKind :=
  match PaymentMethod.service pm, PaymentMethod.type pm with
  | Some s, Some t =>
      if negb (String.eqb s "opencollective") then AnyOther
      else if String.eqb t "manual" then BankTransfer
      else if String.eqb t "collective" || String.eqb t "host" then FromBalance
      else AnyOther
  | _, _ => AnyOther
  end.

(** The candidates for the platform fee percentage of an order, in order of
    precedence. *)
Definition platformFeePrecedence (defaults : FeesDefault) (o : Order.t)
  (host : Collective.t) : list Js.value :=
  let fixedOnOrder := Js.optGet (Order.data o) "platformFeePercent" in
  let ofCollective := Collective.platformFeePercent (Order.collective o) in
  let ofPlatform := platformPercent defaults in
  match paymentKind (Order.paymentMethod o) with
  | BankTransfer =>
      [fixedOnOrder;
       Js.optGet (Collective.data (Order.collective o)) "bankTransfersPlatformFeePercent";
       Js.optGet (Collective.data host) "bankTransfersPlatformFeePercent";
       Js.Number zero;
       ofCollective; ofPlatform]
  | FromBalance => [fixedOnOrder; Js.Number zero; ofCollective; ofPlatform]
  | AnyOther => [fixedOnOrder; ofCollective; ofPlatform]
  end.

(** [c] is the CREDIT row of the double entry [transaction] belongs to:
    [transaction] itself, or the only other row of its group. *)
Definition creditOfGroup (transaction c : Transaction.t) (l : list Transaction.t)
  : Prop :=
  Transaction.type c = TransactionType.CREDIT
  /\ (c = transaction
      \/ (Transaction.type transaction = TransactionType.DEBIT
          /\ filter
               (fun x => String.eqb (Transaction.TransactionGroup x)
                                    (Transaction.TransactionGroup transaction)
                         && negb (Transaction.id x =? Transaction.id transaction)%positive)
               l = [c])).

(* ================================================================== *)
(** ** Sample data *)

Module Sample.

Definition defaults : FeesDefault :=
  {| platformPercent := Js.Number (of_Z 5); hostPercent := Js.Number (of_Z 10) |}.

Definition collective : Collective.t :=
  {| Collective.id := 20%positive;
     Collective.data := None;
     Collective.platformFeePercent := Js.Number (of_Z 5);
     Collective.hostFeePercent := Js.Number (of_Z 10);
     Collective.isHostAccount := false |}.

Definition hostAccount : Collective.t :=
  {| Collective.id := 30%positive;
     Collective.data := Some [("bankTransfersHostFeePercent", Js.Number (of_Z 8))];
     Collective.platformFeePercent := Js.Number (of_Z 5);
     Collective.hostFeePercent := Js.Number (of_Z 10);
     Collective.isHostAccount := true |}.

Definition bankTransfer : PaymentMethod.t :=
  {| PaymentMethod.service := Some "opencollective";
     PaymentMethod.type := Some "manual";
     PaymentMethod.paid := false;
     PaymentMethod.saved := false |}.

Definition creditCard : PaymentMethod.t :=
  {| PaymentMethod.service := Some "stripe";
     PaymentMethod.type := Some "creditcard";
     PaymentMethod.paid := false;
     PaymentMethod.saved := false |}.

(** A new order of 10.00 with the platform fee fixed at 5 percent. *)
Definition order (pm : PaymentMethod.t) (c : Collective.t) (interval : option string)
  : Order.t :=
  {| Order.id := 7%positive;
     Order.FromCollectiveId := 40%positive;
     Order.description := "Monthly donation";
     Order.totalAmount := Some 1000;
     Order.currency := "USD";
     Order.interval := interval;
     Order.processedAt := None;
     Order.status := OrderStatus.NEW;
     Order.SubscriptionId := None;
     Order.data := Some [("platformFeePercent", Js.Number (of_Z 5))];
     Order.paymentMethod := pm;
     Order.collective := c;
     Order.tierId := None |}.

(** A ledger row of a contribution of 10.00 with a host fee of 0.50, a
    platform fee of 0.20 and a payment processor fee of 0.30. *)
Definition row (i : Id) (ty : TransactionType.t) (group : string)
  (refund : option Id) : Transaction.t :=
  {| Transaction.id := i;
     Transaction.type := ty;
     Transaction.TransactionGroup := group;
     Transaction.RefundTransactionId := refund;
     Transaction.CreatedByUserId := Some 3%positive;
     Transaction.description := "Monthly donation";
     Transaction.amount := 1000;
     Transaction.amountInHostCurrency := 1000;
     Transaction.netAmountInCollectiveCurrency := 900;
     Transaction.hostFeeInHostCurrency := -50;
     Transaction.platformFeeInHostCurrency := -20;
     Transaction.paymentProcessorFeeInHostCurrency := -30;
     Transaction.currency := "USD";
     Transaction.hostCurrency := "USD";
     Transaction.hostCurrencyFxRate := of_Z 1;
     Transaction.FromCollectiveId := Some 40%positive;
     Transaction.CollectiveId := Some 20%positive;
     Transaction.HostCollectiveId := Some 30%positive;
     Transaction.PaymentMethodId := Some 5%positive;
     Transaction.OrderId := Some 7%positive;
     Transaction.ExpenseId := None;
     Transaction.UsingGiftCardFromCollectiveId := None;
     Transaction.kind := Some "CONTRIBUTION";
     Transaction.data := None;
     Transaction.isRefund := false |}.

Definition user : User.t := {| User.id := 3%positive; User.email := "user@example.org" |}.

(** A double entry bookkeeping of new rows: the DEBIT, then the CREDIT, with
    the next two primary keys, in one new group. *)
Definition rowOf (values : RefundEntry.t) (i : Id) (ty : TransactionType.t)
  (group : string) : Transaction.t :=
  {| Transaction.id := i;
     Transaction.type := ty;
     Transaction.TransactionGroup := group;
     Transaction.RefundTransactionId := None;
     Transaction.CreatedByUserId := RefundEntry.CreatedByUserId values;
     Transaction.description := RefundEntry.description values;
     Transaction.amount := RefundEntry.amount values;
     Transaction.amountInHostCurrency := RefundEntry.amountInHostCurrency values;
     Transaction.netAmountInCollectiveCurrency :=
       RefundEntry.netAmountInCollectiveCurrency values;
     Transaction.hostFeeInHostCurrency := RefundEntry.hostFeeInHostCurrency values;
     Transaction.platformFeeInHostCurrency := RefundEntry.platformFeeInHostCurrency values;
     Transaction.paymentProcessorFeeInHostCurrency :=
       RefundEntry.paymentProcessorFeeInHostCurrency values;
     Transaction.currency := RefundEntry.currency values;
     Transaction.hostCurrency := RefundEntry.hostCurrency values;
     Transaction.hostCurrencyFxRate := RefundEntry.hostCurrencyFxRate values;
     Transaction.FromCollectiveId := RefundEntry.FromCollectiveId values;
     Transaction.CollectiveId := RefundEntry.CollectiveId values;
     Transaction.HostCollectiveId := RefundEntry.HostCollectiveId values;
     Transaction.PaymentMethodId := RefundEntry.PaymentMethodId values;
     Transaction.OrderId := RefundEntry.OrderId values;
     Transaction.ExpenseId := RefundEntry.ExpenseId values;
     Transaction.UsingGiftCardFromCollectiveId := None;
     Transaction.kind := RefundEntry.kind values;
     Transaction.data := Some (RefundEntry.data values);
     Transaction.isRefund := RefundEntry.isRefund values |}.

Definition createDoubleEntry (values : RefundEntry.t) (l : list Transaction.t)
  : Js.completion Transaction.t * list Transaction.t :=
  let next := Pos.succ (fold_right Pos.max 1%positive (map Transaction.id l)) in
  let debit := rowOf values next TransactionType.DEBIT "g2" in
  let credit := rowOf values (Pos.succ next) TransactionType.CREDIT "g2" in
  (Js.Return credit, l ++ [debit; credit]).

(** The stored net amount stands for [netAmount]; no transaction has a
    platform tip. *)
Definition netAmount (t : Transaction.t) : Z :=
  Transaction.netAmountInCollectiveCurrency t.

Definition noPlatformTip (t : Transaction.t) (l : list Transaction.t)
  : option Transaction.t := None.

(** A contribution: the DEBIT of the contributor and the CREDIT of the
    collective, not refunded. *)
Definition debit : Transaction.t := row 1%positive TransactionType.DEBIT "g1" None.
Definition credit : Transaction.t := row 2%positive TransactionType.CREDIT "g1" None.

Definition contribution : Ledger :=
  {| rows := [debit; credit]; journal := [] |}.

(** The same contribution, already refunded by the double entry of group
    [g2]. *)
Definition refunded : Ledger :=
  {| rows := [row 1%positive TransactionType.DEBIT "g1" (Some 4%positive);
              row 2%positive TransactionType.CREDIT "g1" (Some 3%positive);
              row 3%positive TransactionType.DEBIT "g2" (Some 2%positive);
              row 4%positive TransactionType.CREDIT "g2" (Some 1%positive)];
     journal := [] |}.

(** A contribution and its refund, freshly created and not linked yet; the
    rows are stored in no particular order. *)
Definition unlinked : Ledger :=
  {| rows := [row 4%positive TransactionType.CREDIT "g2" None;
              row 1%positive TransactionType.DEBIT "g1" None;
              row 3%positive TransactionType.DEBIT "g2" None;
              row 9%positive TransactionType.CREDIT "g5" None;
              row 2%positive TransactionType.CREDIT "g1" None];
     journal := [] |}.

(** A lone DEBIT row. *)
Definition orphan : Ledger :=
  {| rows := [debit]; journal := [] |}.

(** An environment that only records what was done to it. *)
Definition Env : Type := list string.

Definition record (what : string) : M Env unit :=
  fun e => (Js.Return tt, e ++ [what]).

(** A provider that charges at once and records the CREDIT transaction. *)
Definition chargingProvider : Provider Env unit :=
  {| waitToCharge := false;
     provider_processOrder := fun _ _ =>
       bind (record "charge")
            (fun _ => ret (Some (row 2%positive TransactionType.CREDIT "g1" None))) |}.

Definition paymentProviders (service : string) : option (string -> option (Provider Env unit)) :=
  if String.eqb service "stripe"
  then Some (fun type => if String.eqb type "creditcard" then Some chargingProvider else None)
  else None.

(** [executeOrder] in that environment. *)
Definition executeOrder (u : argument User.t) (o : argument Order.t) (e : Env)
  : Js.completion unit * argument Order.t * Env :=
  executeOrder Env unit paymentProviders
    (fun _ => ret tt) (fun _ => ret tt) (fun _ => "2021-03-02")
    (fun _ _ _ _ => ret tt) 1%positive (fun _ => ret tt) (fun _ => false)
    (fun _ => ret tt) (fun _ e => e) (fun _ _ e => e ++ ["thankyou"])
    (fun _ e => e) (fun _ e => e) (fun _ => ret 99%positive)
    u o tt e.

(** No collective has a host. *)
Definition noHost (c : Collective.t) : option Collective.t := None.

End Sample.

(* ================================================================== *)
(** ** Further functions of [lib/payments] *)

(** A nullable string inside a template literal. *)
Definition interpolate (v : option string) : string :=
  match v with
  | Some s => s
  | None => "null"
  end.

(** [v || d] for a nullable string [v]. *)
Definition orElse (v : option string) (d : string) : string :=
  match v with
  | Some x => if String.eqb x EmptyString then d else x
  | None => d
  end.

(** [isProvider(fqn, paymentMethod)]. *)
Definition isProvider (fqn : string) (paymentMethod : PaymentMethod.t) : bool :=
  let pmFqn :=
    (interpolate (PaymentMethod.service paymentMethod) ++ "."
       ++ orElse (PaymentMethod.type paymentMethod) "default")%string in
  String.eqb fqn pmFqn.


Section HostFee.

Variable config_fees_default : FeesDefault.
Variable getHostCollective : Collective.t -> option Collective.t.

(** [StringToNumber] of the language, which the repository does not define. *)
Variable StringToNumber : string -> float64.



End HostFee.

(** The sources of a host fee percentage, by payment service. *)
Inductive HostFeeSource : Type :=
  | BankTransferFee
  | BalanceFee
  | CreditCardFee
  | PaypalFee
  | NoServiceFee.

Definition hostFeeSource (pm : PaymentMethod.t) : HostFeeSource :=
  match PaymentMethod.service pm with
  | Some s =>
      if String.eqb s "stripe" then CreditCardFee
      else if String.eqb s "paypal" then PaypalFee
      else if String.eqb s "opencollective" then
        match PaymentMethod.type pm with
        | Some t =>
            if String.eqb t "manual" then BankTransferFee
            else if String.eqb t "collective" || String.eqb t "host" then BalanceFee
            else NoServiceFee
        | None => NoServiceFee
        end
      else NoServiceFee
  | None => NoServiceFee
  end.

(** The candidates for the host fee percentage of an order whose collective
    is not a host account, in order of precedence. *)
Definition hostFeePrecedence (defaults : FeesDefault) (o : Order.t)
  (host : Collective.t) : list Js.value :=
  let fixedOnOrder := Js.optGet (Order.data o) "hostFeePercent" in
  let ofCollective := Collective.hostFeePercent (Order.collective o) in
  let ofPlatform := hostPercent defaults in
  let configured (key : string) :=
    [Js.optGet (Collective.data (Order.collective o)) key;
     Js.optGet (Collective.data host) key] in
  match hostFeeSource (Order.paymentMethod o) with
  | BankTransferFee =>
      fixedOnOrder :: configured "bankTransfersHostFeePercent" ++ [ofCollective; ofPlatform]
  | BalanceFee => [fixedOnOrder; Js.Number zero; ofCollective; ofPlatform]
  | CreditCardFee =>
      fixedOnOrder :: configured "creditCardHostFeePercent" ++ [ofCollective; ofPlatform]
  | PaypalFee =>
      fixedOnOrder :: configured "paypalHostFeePercent" ++ [ofCollective; ofPlatform]
  | NoServiceFee => [fixedOnOrder; ofCollective; ofPlatform]
  end.

(** Whether [getHostFeePercent] reads the settings of the host. *)
Definition readsHostSettings (pm : PaymentMethod.t) : bool :=
  match hostFeeSource pm with
  | BankTransferFee | CreditCardFee | PaypalFee => true
  | BalanceFee | NoServiceFee => false
  end.

(* ================================================================== *)
(** ** What linking does to a row *)

(** Two rows that differ at most in [RefundTransactionId] and [data]. *)
Definition sameBooking (x y : Transaction.t) : Prop :=
  Transaction.set_data None (Transaction.set_RefundTransactionId 1%positive x)
  = Transaction.set_data None (Transaction.set_RefundTransactionId 1%positive y).

(** The instance [associateTransactionRefundId] saves for a row: linked to
    [partner], and carrying [data] when it is one of the first two rows and
    [data] is given. *)
Definition linked (data : option Js.object) (first : bool) (partner : Id)
  (t : Transaction.t) : Transaction.t :=
  Transaction.set_RefundTransactionId partner
    (match data with
     | Some _ => if first then Transaction.set_data data t else t
     | None => t
     end).

(* ================================================================== *)
(** ** Order execution, further *)

(** What a computation on an executing order guarantees about the order:
    from an order satisfying [P], it completes as [r] with an order [o] such
    that [Q r o]. *)
Definition triple {Env A : Type} (P : Order.t -> Prop) (c : M (Exec Env) A)
  (Q : Js.completion A -> Order.t -> Prop) : Prop :=
  forall s, P (order Env s) -> Q (fst (c s)) (order Env (snd (c s))).

(** The terms of an order: everything but its status, [processedAt],
    [SubscriptionId], [data] and the [saved] flag of its payment method. *)
Definition sameTerms (o o' : Order.t) : Prop :=
  Order.id o' = Order.id o
  /\ Order.FromCollectiveId o' = Order.FromCollectiveId o
  /\ Order.description o' = Order.description o
  /\ Order.totalAmount o' = Order.totalAmount o
  /\ Order.currency o' = Order.currency o
  /\ Order.interval o' = Order.interval o
  /\ Order.collective o' = Order.collective o
  /\ Order.tierId o' = Order.tierId o
  /\ PaymentMethod.service (Order.paymentMethod o')
     = PaymentMethod.service (Order.paymentMethod o)
  /\ PaymentMethod.type (Order.paymentMethod o')
     = PaymentMethod.type (Order.paymentMethod o)
  /\ PaymentMethod.paid (Order.paymentMethod o')
     = PaymentMethod.paid (Order.paymentMethod o).


(** An order marked as processed. *)
Definition processed (o : Order.t) : Prop :=
  Order.processedAt o <> None
  /\ (Order.status o = OrderStatus.PAID \/ Order.status o = OrderStatus.ACTIVE)
  /\ Js.optGet (Order.data o) "paymentIntent" = Js.Undefined.

(** [interval] as a condition. *)
Definition recurring (o : Order.t) : bool :=
  Js.truthy (match Order.interval o with
             | Some i => Js.String i
             | None => Js.Null
             end).

Section OrderSettlement.

Local Open Scope effect_scope.

Variable Env : Type.
Variable Options : Type.
Variable paymentProviders : string -> option (string -> option (Provider Env Options)).
Variable populate : Order.t -> M Env unit.
Variable validatePlanRequest : Order.t -> M Env unit.
Variable now : Env -> Date.
Variable findOrAddUserWithRole :
  forall (collective user memberCollective : Id) (tier : option Id), M Env unit.
Variable platformCollectiveId : Id.
Variable subscribeOrUpgradePlan : Order.t -> M Env unit.
Variable isPrepaidBudgetOrder : Order.t -> bool.
Variable createPrepaidPaymentMethod : Transaction.t -> M Env unit.
Variable savePaymentMethod : PaymentMethod.t -> Env -> Env.
Variable sendOrderConfirmedEmail : Order.t -> Transaction.t -> Env -> Env.
Variable sendOrderProcessingEmail : Order.t -> Env -> Env.
Variable sendManualPendingOrderEmail : Order.t -> Env -> Env.
Variable Subscription_create : Order.t -> M Env Id.

(** What [executeOrder] does once [processOrder] has answered: the lines
    from [if (transaction)] to the end, [o] being the order as validated. *)
Definition settle (user : User.t) (o : Order.t) (transaction : option Transaction.t)
  : M (Exec Env) unit :=
  match transaction with
  | Some t =>
      (fun s => updateOrder Env
                  (Order.markPaid (now (env Env s))
                                  (Js.omit (Order.data o) "paymentIntent")) s) ;;
      inEnv Env (findOrAddUserWithRole (Collective.id (Order.collective o))
                   (User.id user) (Order.FromCollectiveId o) (Order.tierId o)) ;;
      o1 <- getOrder Env ;;
      when (Js.truthy (Js.optGet (Order.data o1) "isFeesOnTop")
            && Js.truthy (Js.optGet (Order.data o1) "platformFee"))
           (inEnv Env (findOrAddUserWithRole platformCollectiveId
                         (User.id user) (Order.FromCollectiveId o1) None)) ;;
      inEnv Env (subscribeOrUpgradePlan o1) ;;
      when (isPrepaidBudgetOrder o1) (inEnv Env (createPrepaidPaymentMethod t))
  | None => ret tt
  end ;;
  o2 <- getOrder Env ;;
  when (Js.truthy (Js.optGet (Order.data o2) "savePaymentMethod"))
       (let pm := PaymentMethod.set_saved true (Order.paymentMethod o2) in
        updateOrder Env (Order.set_paymentMethod pm) ;;
        detached Env (savePaymentMethod pm)) ;;
  o3 <- getOrder Env ;;
  sendEmailNotifications Env sendOrderConfirmedEmail sendOrderProcessingEmail
    sendManualPendingOrderEmail o3 transaction ;;
  match transaction with
  | Some t =>
      match Transaction.UsingGiftCardFromCollectiveId t with
      | Some giftCardCollective =>
          inEnv Env (findOrAddUserWithRole (Collective.id (Order.collective o3))
                       (User.id user) giftCardCollective (Order.tierId o3))
      | None => ret tt
      end
  | None => ret tt
  end ;;
  when (Js.truthy (match Order.interval o3 with
                   | Some i => Js.String i
                   | None => Js.Null
                   end)
        && isSome transaction)
       (createSubscription Env Subscription_create).

(** [options = {}], the default of [executeOrder]. *)
Variable noOptions : Options.

(** The payment method [markAsPaid] puts on the order. *)
Definition manualPaid : PaymentMethod.t :=
  {| PaymentMethod.service := Some "opencollective";
     PaymentMethod.type := Some "manual";
     PaymentMethod.paid := true;
     PaymentMethod.saved := false |}.

(** [Order.prototype.markAsPaid(user)]: the completion of the promise, the
    order instance and the environment afterwards.  The payment method it
    puts on the order is a plain object, which cannot be saved: the model
    holds for orders that do not ask to save their payment method. *)
Definition markAsPaid (user : argument User.t) (this : Order.t) (e : Env)
  : Js.completion unit * argument Order.t * Env :=
  executeOrder Env Options paymentProviders populate validatePlanRequest now
    findOrAddUserWithRole platformCollectiveId subscribeOrUpgradePlan
    isPrepaidBudgetOrder createPrepaidPaymentMethod savePaymentMethod
    sendOrderConfirmedEmail sendOrderProcessingEmail sendManualPendingOrderEmail
    Subscription_create
    user (Instance (Order.set_paymentMethod manualPaid this)) noOptions e.

(** The [refundTransaction] member of a provider module, when it has one. *)
Variable provider_refundTransaction :
  Provider Env Options ->
  option (Transaction.t -> option User.t -> option string -> M Env (option Transaction.t)).

(** [transaction.PaymentMethod ? findPaymentMethodProvider(...) :
    paymentProviders.opencollective.types.manual]. *)
Definition refundProvider (paymentMethod : option PaymentMethod.t)
  : Js.completion (Provider Env Options) :=
  match paymentMethod with
  | Some pm => findPaymentMethodProvider Env Options paymentProviders pm
  | None =>
      Js.andThen (Js.deref (paymentProviders "opencollective")) (fun types =>
      Js.deref (types "manual"))
  end.

(** [refundTransaction(transaction, user, message)], [paymentMethod] being
    the [PaymentMethod] the transaction was loaded with. *)
Definition refundTransaction (transaction : Transaction.t)
  (paymentMethod : option PaymentMethod.t) (user : option User.t)
  (message : option string) : M Env (option Transaction.t) :=
  match refundProvider paymentMethod with
  | Js.Throw e => throw e
  | Js.Return paymentMethodProvider =>
      match provider_refundTransaction paymentMethodProvider with
      | None => throw (Js.Error "This payment method provider does not support refunds")
      | Some refund => refund transaction user message
      end
  end.

End OrderSettlement.

(* ================================================================== *)
(** ** More sample data *)

Module Cases.

(** A host with its own settings for credit card payments. *)
Definition host : Collective.t :=
  {| Collective.id := 31%positive;
     Collective.data := Some [("creditCardHostFeePercent", Js.Number (of_Z 7))];
     Collective.platformFeePercent := Js.Null;
     Collective.hostFeePercent := Js.Number (of_Z 10);
     Collective.isHostAccount := true |}.


(** A payment method without service nor type. *)
Definition bare : PaymentMethod.t :=
  {| PaymentMethod.service := None;
     PaymentMethod.type := None;
     PaymentMethod.paid := false;
     PaymentMethod.saved := false |}.

End Cases.

(* ================================================================== *)
(** ** The credit card provider: what a failed charge becomes *)

Module Stripe.

Definition UNKNOWN_ERROR_MSG : string :=
  "Something went wrong with the payment, please contact support@opencollective.com.".

(** The messages checked strictly. *)
Definition knownErrors : list string :=
  ["Your card has insufficient funds.";
   "Your card was declined.";
   "Your card does not support this type of purchase.";
   "Your card has expired.";
   "Your card's security code is incorrect.";
   "Your card number is incorrect.";
   "The zip code you supplied failed validation.";
   "Invalid amount.";
   "Payment Intent require action"].

(** The messages checked partially, with what they are rewritten to, in the
    order of their keys. *)
Definition identifiedErrors : list (string * string) :=
  [("This object cannot be accessed right now because another API request or Stripe process is currently accessing it.",
    "Payment Processing error (API request).");
   ("You cannot confirm this PaymentIntent because it's missing a payment method.",
    "Internal Payment error (invalid PaymentIntent)");
   ("You have exceeded the maximum number of declines on this card",
    "Your card was declined.");
   ("An error occurred while processing your card.",
    "Payment Processing error (API error).");
   ("This account cannot currently make live charges.",
    "Payment Processing error (Host error).")].

(** [s.includes(sub)]. *)
Fixpoint includes (s sub : string) : bool :=
  String.prefix sub s
  || match s with
     | EmptyString => false
     | String _ rest => includes rest sub
     end.

Section ChargeError.

(** The message of a [TypeError] is the engine's. *)
Variable typeErrorMessage : string.

Definition message (error : Js.exn) : string :=
  match error with
  | Js.Error m => m
  | Js.TypeError => typeErrorMessage
  end.

(** The [catch] block of [processOrder]: what is thrown for the error
    caught from [createChargeAndTransactions]. *)
Definition onChargeError (error : Js.exn) : Js.exn :=
  if existsb (String.eqb (message error)) knownErrors then error
  else
    match List.find (fun kv => includes (message error) (fst kv)) identifiedErrors with
    | Some (_, rewritten) => Js.Error rewritten
    | None => Js.Error UNKNOWN_ERROR_MSG
    end.

End ChargeError.

End Stripe.

(* ================================================================== *)
(** ** Unsubscribe tokens of [lib/email] *)

Section UnsubscribeToken.

(** [config.keys.opencollective.emailUnsubscribeSecret] and the two hashing
    functions of [lib/utils]. *)
Variable emailUnsubscribeSecret : string.
Variable sha512 : string -> string.
Variable md5 : string -> string.

(** [generateUnsubscribeToken(email, collectiveSlug, type, hashingFunction)]. *)
Definition generateUnsubscribeToken (email : string) (collectiveSlug : option string)
  (type : string) (hashingFunction : string -> string) : string :=
  let uid := (email ++ "." ++ orElse collectiveSlug "any" ++ "." ++ type ++ "."
                ++ emailUnsubscribeSecret)%string in
  hashingFunction uid.

(** [isValidUnsubscribeToken(token, email, collectiveSlug, type)]. *)
Definition isValidUnsubscribeToken (token email : string) (collectiveSlug : option string)
  (type : string) : bool :=
  let computedToken := generateUnsubscribeToken email collectiveSlug type sha512 in
  if String.eqb computedToken token then true
  else String.eqb (generateUnsubscribeToken email collectiveSlug type md5) token.

End UnsubscribeToken.

(* ================================================================== *)
(** ** A scenario with a provider that waits for the money *)

Module Scenario.

(** The provider of bank transfers: it charges only what was paid. *)
Definition manualProvider : Provider Sample.Env unit :=
  {| waitToCharge := true;
     provider_processOrder := fun _ _ =>
       bind (Sample.record "received") (fun _ => ret (Some Sample.credit)) |}.

Definition paymentProviders (service : string)
  : option (string -> option (Provider Sample.Env unit)) :=
  if String.eqb service "opencollective"
  then Some (fun type => if String.eqb type "manual" then Some manualProvider else None)
  else Sample.paymentProviders service.


(** Only the provider of bank transfers refunds. *)
Definition provider_refundTransaction (p : Provider Sample.Env unit)
  : option (Transaction.t -> option User.t -> option string
            -> M Sample.Env (option Transaction.t)) :=
  if waitToCharge Sample.Env unit p
  then Some (fun t _ _ => bind (Sample.record "refund") (fun _ => ret (Some t)))
  else None.

End Scenario.

(* ================================================================== *)
(** * Properties *)

(** ** [calcFee] *)




(** The product and the quotient are the rounded ones: [7 * fee] with [fee]
    the double nearest to [150 / 7] is the double [150], so [calcFee] yields
    [2] although the exact product lies below [150]. *)
Remark calcFee_on_rounded_product :
  let fee := div (of_Z 150) (of_Z 7) in
  mul (of_Z 7) fee = of_Z 150 /\ calcFee (of_Z 7) fee = Integral 2.
Proof. vm_compute. split; reflexivity. Qed.

(** ** Legacy payment method types *)

(** C10.  Converting a legacy type to its service/type pair and back gives
    the legacy type again, except for [BANK_TRANSFER], whose pair
    (opencollective, manual) has no legacy type. *)
Theorem legacy_type_round_trip (t : LegacyPaymentMethod.PaymentMethodLegacyTypeEnum) :
  LegacyPaymentMethod.getLegacyPaymentMethodType
    (LegacyPaymentMethod.getServiceTypeFromLegacyPaymentMethodType t)
  = match t with
    | LegacyPaymentMethod.BANK_TRANSFER => None
    | _ => Some t
    end
  /\ LegacyPaymentMethod.getServiceTypeFromLegacyPaymentMethodType
       LegacyPaymentMethod.BANK_TRANSFER
     = {| LegacyPaymentMethod.service := LegacyPaymentMethod.SERVICE_OPENCOLLECTIVE;
          LegacyPaymentMethod.type := LegacyPaymentMethod.TYPE_MANUAL |}.
Proof. destruct t; split; reflexivity. Qed.

(** ** Fee percentage waterfalls *)

Lemma find_isNumber_firstNumber (l : list Js.value) :
  Js.find Js.isNumber l = firstNumber l.
Proof.
  unfold Js.find.
  induction l as [|v rest IH]; [reflexivity|].
  destruct v; cbn; try exact IH; reflexivity.
Qed.

Lemma eqb_both_false (t a b : string) :
  a <> b -> String.eqb t a = true -> String.eqb t b = false.
Proof.
  intros Hab Ha. apply String.eqb_eq in Ha. subst t.
  apply String.eqb_neq. exact Hab.
Qed.

(** C6, as stated, fails: a bank transfer order whose collective has no host
    makes [getPlatformFeePercent] throw, although the percentage fixed on
    the order is a number. *)
Lemma getPlatformFeePercent_without_host_throws :
  Js.optGet (Order.data (Sample.order Sample.bankTransfer Sample.collective None))
            "platformFeePercent" = Js.Number (of_Z 5)
  /\ getPlatformFeePercent Sample.defaults Sample.noHost
       (Sample.order Sample.bankTransfer Sample.collective None) None
     = Js.Throw Js.TypeError.
Proof. split; reflexivity. Qed.

(** C6, amended.  For every order that, when it is paid by bank transfer
    (opencollective/manual), has a host (the one passed or the one of its
    collective), [getPlatformFeePercent] returns the first number among: the
    percentage fixed on the order; for bank transfers only, the collective's
    and the host's [bankTransfersPlatformFeePercent] and 0; for payments from
    a collective's or host's balance, 0; the collective's
    [platformFeePercent]; the platform default. *)
Theorem getPlatformFeePercent_precedence (defaults : FeesDefault)
  (getHostCollective : Collective.t -> option Collective.t)
  (o : Order.t) (host : option Collective.t) (h : Collective.t)
  (Hhost : isManual (Order.paymentMethod o) = true ->
           hostOrLookup getHostCollective o host = Some h) :
  getPlatformFeePercent defaults getHostCollective o host
  = Js.Return (firstNumber (platformFeePrecedence defaults o h)).
Proof.
  unfold getPlatformFeePercent, platformFeePrecedence, paymentKind, isManual,
    PaymentMethod.serviceIs, PaymentMethod.typeIs in *.
  rewrite <- find_isNumber_firstNumber.
  destruct (PaymentMethod.service (Order.paymentMethod o)) as [s|];
    destruct (PaymentMethod.type (Order.paymentMethod o)) as [t|];
    cbn [andb negb Js.andThen]; try reflexivity.
  - destruct (String.eqb s "opencollective") eqn:Hs; cbn [andb negb Js.andThen];
      [|reflexivity].
    destruct (String.eqb t "manual") eqn:Hm; cbn [andb negb Js.andThen].
    + rewrite (Hhost eq_refl). cbn [Js.deref Js.andThen].
      rewrite (eqb_both_false t "manual" "collective") by (discriminate || exact Hm).
      rewrite (eqb_both_false t "manual" "host") by (discriminate || exact Hm).
      cbn [orb]. repeat rewrite <- app_assoc. reflexivity.
    + destruct (String.eqb t "collective" || String.eqb t "host"); reflexivity.
  - destruct (String.eqb s "opencollective"); reflexivity.
Qed.

(** The precedence at a bank transfer order whose host is passed. *)
Lemma getPlatformFeePercent_precedence_witness :
  getPlatformFeePercent Sample.defaults Sample.noHost
    (Sample.order Sample.bankTransfer Sample.collective None) (Some Sample.hostAccount)
  = Js.Return (firstNumber
                 (platformFeePrecedence Sample.defaults
                    (Sample.order Sample.bankTransfer Sample.collective None)
                    Sample.hostAccount)).
Proof.
  apply (getPlatformFeePercent_precedence Sample.defaults Sample.noHost
           (Sample.order Sample.bankTransfer Sample.collective None)
           (Some Sample.hostAccount) Sample.hostAccount).
  intros _. reflexivity.
Defined.

(** C7.  When the collective of the order is itself a host account,
    [getHostFeePercent] returns 0, whatever the payment method and whatever
    percentages the order, the collective, the host or the platform carry. *)
Theorem getHostFeePercent_host_account (defaults : FeesDefault)
  (getHostCollective : Collective.t -> option Collective.t)
  (o : Order.t) (host : option Collective.t)
  (Hhost : Collective.isHostAccount (Order.collective o) = true) :
  getHostFeePercent defaults getHostCollective o host = Js.Return (Js.Number zero).
Proof.
  unfold getHostFeePercent. rewrite Hhost. reflexivity.
Qed.

(** A bank transfer to a host account, without any host to look up. *)
Lemma getHostFeePercent_host_account_witness :
  getHostFeePercent Sample.defaults Sample.noHost
    (Sample.order Sample.bankTransfer Sample.hostAccount None) None
  = Js.Return (Js.Number zero).
Proof.
  apply (getHostFeePercent_host_account Sample.defaults Sample.noHost
           (Sample.order Sample.bankTransfer Sample.hostAccount None) None).
  reflexivity.
Defined.

(** ** Executing an order *)

Section ExecuteOrderGuards.

Variable Env : Type.
Variable Options : Type.
Variable paymentProviders : string -> option (string -> option (Provider Env Options)).
Variable populate : Order.t -> M Env unit.
Variable validatePlanRequest : Order.t -> M Env unit.
Variable now : Env -> Date.
Variable findOrAddUserWithRole : Id -> Id -> Id -> option Id -> M Env unit.
Variable platformCollectiveId : Id.
Variable subscribeOrUpgradePlan : Order.t -> M Env unit.
Variable isPrepaidBudgetOrder : Order.t -> bool.
Variable createPrepaidPaymentMethod : Transaction.t -> M Env unit.
Variable savePaymentMethod : PaymentMethod.t -> Env -> Env.
Variable sendOrderConfirmedEmail : Order.t -> Transaction.t -> Env -> Env.
Variable sendOrderProcessingEmail : Order.t -> Env -> Env.
Variable sendManualPendingOrderEmail : Order.t -> Env -> Env.
Variable Subscription_create : Order.t -> M Env Id.

(** C8, amended.  [executeOrder] rejects with an error, leaving the order
    (its status included) and everything else as they were, nothing having
    been charged, whenever the order was already processed, whenever its
    interval is a non-empty string other than [month] and [year], and
    whenever its amount is missing or zero. *)
Theorem executeOrder_rejects (user : argument User.t) (o : Order.t)
  (options : Options) (e : Env)
  (Hinvalid :
     Order.processedAt o <> None
     \/ (exists i, Order.interval o = Some i
                   /\ i <> EmptyString /\ i <> "month" /\ i <> "year")
     \/ Order.totalAmount o = None
     \/ Order.totalAmount o = Some 0) :
  exists error,
    executeOrder Env Options paymentProviders populate validatePlanRequest now
      findOrAddUserWithRole platformCollectiveId subscribeOrUpgradePlan
      isPrepaidBudgetOrder createPrepaidPaymentMethod savePaymentMethod
      sendOrderConfirmedEmail sendOrderProcessingEmail sendManualPendingOrderEmail
      Subscription_create user (Instance o) options e
    = (Js.Throw error, Instance o, e).
Proof.
  unfold executeOrder.
  destruct user as [u|]; [|eexists; reflexivity].
  unfold executeOrderOf, bind, getOrder, throw. cbn [order env].
  destruct (Order.processedAt o) as [at_|] eqn:Hat; [eexists; reflexivity|].
  assert (Hthrows : exists error,
             validatePayment
               {| payment_amount := Order.totalAmount o;
                  payment_interval := Order.interval o;
                  payment_currency := Order.currency o |} = Js.Throw error).
  { unfold validatePayment. cbn [payment_interval payment_amount].
    destruct Hinvalid as [H | [(i & Hi & Hne & Hm & Hy) | [H | H]]].
    - congruence.
    - rewrite Hi.
      apply String.eqb_neq in Hne, Hm, Hy. rewrite Hne, Hm, Hy.
      eexists; reflexivity.
    - rewrite H.
      match goal with |- context [if ?b then _ else _] => destruct b end;
        eexists; reflexivity.
    - rewrite H.
      match goal with |- context [if ?b then _ else _] => destruct b end;
        eexists; reflexivity. }
  destruct Hthrows as [error Hv]. rewrite Hv. eexists; reflexivity.
Qed.

End ExecuteOrderGuards.

(** C8, as stated, fails: the empty string is an interval that is neither
    null, [month] nor [year], yet the order is charged and marked paid. *)
Lemma executeOrder_empty_interval_is_charged :
  let o := Sample.order Sample.creditCard Sample.collective (Some EmptyString) in
  exists o',
    Sample.executeOrder (Instance Sample.user) (Instance o) []
    = (Js.Return tt, Instance o', ["charge"; "thankyou"])
    /\ Order.status o' = OrderStatus.PAID.
Proof. eexists. split; reflexivity. Qed.

(** A weekly order is rejected and nothing is recorded. *)
Lemma executeOrder_rejects_witness :
  exists error,
    Sample.executeOrder (Instance Sample.user)
      (Instance (Sample.order Sample.creditCard Sample.collective (Some "week"))) []
    = (Js.Throw error,
       Instance (Sample.order Sample.creditCard Sample.collective (Some "week")), []).
Proof.
  apply (executeOrder_rejects Sample.Env unit).
  right; left. exists "week". cbn. repeat split; discriminate.
Defined.

(** ** The table of transactions *)

Section LedgerTable.

Implicit Types (r x : Transaction.t) (l : list Transaction.t).

Lemma insertById_perm r l : Permutation (insertById r l) (r :: l).
Proof.
  induction l as [|x rest IH]; cbn [insertById]; [reflexivity|].
  destruct (Transaction.id r <=? Transaction.id x)%positive; [reflexivity|].
  rewrite IH. apply perm_swap.
Qed.

Lemma orderById_perm l : Permutation (orderById l) l.
Proof.
  induction l as [|x rest IH]; cbn [orderById]; [reflexivity|].
  rewrite insertById_perm. constructor. exact IH.
Qed.

Lemma insertById_sorted r l : Sorted byId l -> Sorted byId (insertById r l).
Proof.
  induction l as [|x rest IH]; intros Hs; cbn [insertById].
  - repeat constructor.
  - destruct (Pos.leb_spec (Transaction.id r) (Transaction.id x)) as [Hle|Hgt].
    + constructor; [exact Hs|]. constructor. exact Hle.
    + inversion Hs as [|? ? Hrest Hhd]; subst.
      constructor; [apply IH; exact Hrest|].
      destruct rest as [|y rest']; cbn [insertById].
      * constructor. unfold byId. lia.
      * destruct (Transaction.id r <=? Transaction.id y)%positive.
        -- constructor. unfold byId. lia.
        -- inversion Hhd; subst. constructor. assumption.
Qed.

Lemma orderById_sorted l : Sorted byId (orderById l).
Proof.
  induction l as [|x rest IH]; cbn [orderById]; [constructor|].
  apply insertById_sorted. exact IH.
Qed.

Lemma insertById_map (f : Transaction.t -> Transaction.t) r l :
  (forall x, Transaction.id (f x) = Transaction.id x) ->
  insertById (f r) (map f l) = map f (insertById r l).
Proof.
  intros Hid. induction l as [|x rest IH]; cbn [insertById map]; [reflexivity|].
  rewrite !Hid. destruct (Transaction.id r <=? Transaction.id x)%positive.
  - reflexivity.
  - cbn [map]. rewrite IH. reflexivity.
Qed.

Lemma orderById_map (f : Transaction.t -> Transaction.t) l :
  (forall x, Transaction.id (f x) = Transaction.id x) ->
  orderById (map f l) = map f (orderById l).
Proof.
  intros Hid. induction l as [|x rest IH]; cbn [orderById map]; [reflexivity|].
  rewrite IH. apply insertById_map. exact Hid.
Qed.

Lemma filter_map_within (p : Transaction.t -> bool)
  (f : Transaction.t -> Transaction.t) l :
  (forall x, In x l -> p (f x) = p x) ->
  filter p (map f l) = map f (filter p l).
Proof.
  induction l as [|x rest IH]; intros Hp; cbn [filter map]; [reflexivity|].
  rewrite (Hp x (or_introl eq_refl)).
  rewrite IH by (intros y Hy; apply Hp; right; exact Hy).
  destruct (p x); reflexivity.
Qed.

Lemma same_key_same_row l r x :
  NoDup (map Transaction.id l) -> In r l -> In x l ->
  Transaction.id x = Transaction.id r -> x = r.
Proof.
  induction l as [|a rest IH]; intros Hnd Hr Hx Hid; [contradiction|].
  cbn [map] in Hnd. inversion Hnd as [|? ? Hnotin Hnd']; subst.
  destruct Hr as [-> | Hr], Hx as [-> | Hx].
  - reflexivity.
  - exfalso. apply Hnotin. rewrite <- Hid. apply in_map. exact Hx.
  - exfalso. apply Hnotin. rewrite Hid. apply in_map. exact Hr.
  - apply IH; assumption.
Qed.

Lemma replaceRow_keys r l : map Transaction.id (replaceRow r l) = map Transaction.id l.
Proof.
  unfold replaceRow. rewrite map_map. apply map_ext. intros x.
  destruct (Pos.eqb_spec (Transaction.id x) (Transaction.id r)) as [Heq|]; congruence.
Qed.

Lemma replaceRow_other r x l :
  In x l -> Transaction.id x <> Transaction.id r -> In x (replaceRow r l).
Proof.
  intros Hx Hne. unfold replaceRow. apply in_map_iff. exists x. split; [|exact Hx].
  apply Pos.eqb_neq in Hne. rewrite Hne. reflexivity.
Qed.

Lemma findAllOfGroups_In g1 g2 l x :
  In x (findAllOfGroups g1 g2 l) -> In x l.
Proof.
  unfold findAllOfGroups. intros Hx.
  apply (Permutation_in _ (orderById_perm _)) in Hx.
  apply filter_In in Hx. tauto.
Qed.

Lemma findAllOfGroups_keys g1 g2 l :
  NoDup (map Transaction.id l) -> NoDup (map Transaction.id (findAllOfGroups g1 g2 l)).
Proof.
  intros Hnd. unfold findAllOfGroups.
  apply (Permutation_NoDup (l := map Transaction.id (filter
           (fun x => String.eqb (Transaction.TransactionGroup x) g1
                     || String.eqb (Transaction.TransactionGroup x) g2) l))).
  - apply Permutation_map. symmetry. apply orderById_perm.
  - induction l as [|a rest IH]; cbn [filter map]; [constructor|].
    cbn [map] in Hnd. inversion Hnd as [|? ? Hnotin Hnd']; subst.
    destruct (String.eqb (Transaction.TransactionGroup a) g1
              || String.eqb (Transaction.TransactionGroup a) g2).
    + cbn [map]. constructor; [|apply IH; exact Hnd'].
      intros Hin. apply Hnotin. apply in_map_iff in Hin.
      destruct Hin as (y & Hy & Hyin). apply filter_In in Hyin.
      rewrite <- Hy. apply in_map. tauto.
    + apply IH. exact Hnd'.
Qed.

(** Saving an instance of a row, with the key and the group of that row,
    commutes with the query of [associateTransactionRefundId]. *)
Lemma findAllOfGroups_replaceRow g1 g2 l r x :
  NoDup (map Transaction.id l) -> In x l ->
  Transaction.id r = Transaction.id x ->
  Transaction.TransactionGroup r = Transaction.TransactionGroup x ->
  findAllOfGroups g1 g2 (replaceRow r l) = replaceRow r (findAllOfGroups g1 g2 l).
Proof.
  intros Hnd Hx Hid Hgroup. unfold findAllOfGroups, replaceRow.
  rewrite filter_map_within.
  - apply orderById_map. intros y.
    destruct (Pos.eqb_spec (Transaction.id y) (Transaction.id r)) as [Heq|]; congruence.
  - intros y Hy.
    destruct (Pos.eqb_spec (Transaction.id y) (Transaction.id r)) as [Heq|]; [|reflexivity].
    assert (y = x) as -> by (apply (same_key_same_row l); congruence).
    rewrite Hgroup. reflexivity.
Qed.

(** Decides every comparison of primary keys in the goal from the equations
    and disequations at hand. *)
Ltac decide_keys :=
  repeat match goal with
         | |- context [Pos.eqb ?a ?b] =>
             destruct (Pos.eqb_spec a b);
             try (exfalso; intuition congruence)
         end.

Lemma replaceRow_four (t1 t2 t3 t4 u1 u2 u3 u4 : Transaction.t) :
  NoDup (map Transaction.id [t1; t2; t3; t4]) ->
  Transaction.id u1 = Transaction.id t1 -> Transaction.id u2 = Transaction.id t2 ->
  Transaction.id u3 = Transaction.id t3 -> Transaction.id u4 = Transaction.id t4 ->
  replaceRow u4 (replaceRow u3 (replaceRow u2 (replaceRow u1 [t1; t2; t3; t4])))
  = [u1; u2; u3; u4].
Proof.
  intros Hnd H1 H2 H3 H4. cbn [map] in Hnd.
  inversion Hnd as [|? ? Hn1 Hnd1]; subst.
  inversion Hnd1 as [|? ? Hn2 Hnd2]; subst.
  inversion Hnd2 as [|? ? Hn3 Hnd3]; subst.
  cbn [In] in Hn1, Hn2, Hn3.
  assert (S1 : replaceRow u1 [t1; t2; t3; t4] = [u1; t2; t3; t4])
    by (unfold replaceRow; cbn [map]; decide_keys; reflexivity).
  assert (S2 : replaceRow u2 [u1; t2; t3; t4] = [u1; u2; t3; t4])
    by (unfold replaceRow; cbn [map]; decide_keys; reflexivity).
  assert (S3 : replaceRow u3 [u1; u2; t3; t4] = [u1; u2; u3; t4])
    by (unfold replaceRow; cbn [map]; decide_keys; reflexivity).
  assert (S4 : replaceRow u4 [u1; u2; u3; t4] = [u1; u2; u3; u4])
    by (unfold replaceRow; cbn [map]; decide_keys; reflexivity).
  rewrite S1, S2, S3, S4. reflexivity.
Qed.

Lemma sorted_four_strict (t1 t2 t3 t4 : Transaction.t) :
  Sorted byId [t1; t2; t3; t4] ->
  NoDup (map Transaction.id [t1; t2; t3; t4]) ->
  (Transaction.id t1 < Transaction.id t2)%positive
  /\ (Transaction.id t2 < Transaction.id t3)%positive
  /\ (Transaction.id t3 < Transaction.id t4)%positive.
Proof.
  intros Hs Hnd. cbn [map] in Hnd.
  inversion Hnd as [|? ? Hn1 Hnd1]; subst.
  inversion Hnd1 as [|? ? Hn2 Hnd2]; subst.
  inversion Hnd2 as [|? ? Hn3 Hnd3]; subst.
  cbn [In] in Hn1, Hn2, Hn3.
  inversion Hs as [|? ? Hs1 Hh1]; subst. inversion Hh1; subst.
  inversion Hs1 as [|? ? Hs2 Hh2]; subst. inversion Hh2; subst.
  inversion Hs2 as [|? ? Hs3 Hh3]; subst. inversion Hh3; subst.
  unfold byId in *.
  repeat split; lia.
Qed.

End LedgerTable.

(** ** Linking a transaction and its refund *)

Lemma findById_present (i : Id) (l : list Transaction.t) :
  In i (map Transaction.id l) ->
  exists r, findById i l = Some r /\ In r l /\ Transaction.id r = i.
Proof.
  unfold findById. induction l as [|x rest IH]; intros Hin; [contradiction|].
  cbn [List.find]. destruct (Pos.eqb_spec (Transaction.id x) i) as [Heq|Hne].
  - exists x. repeat split; [left; reflexivity | exact Heq].
  - destruct Hin as [Hx | Hin]; [contradiction|].
    destruct (IH Hin) as (r & Hfind & Hr & Hid).
    exists r. repeat split; [exact Hfind | right; exact Hr | exact Hid].
Qed.

(** The instances [associateTransactionRefundId] saves, from the rows it
    found. *)
Lemma associateTransactionRefundId_run (transaction refund : Transaction.t)
  (data : option Js.object) (w : Ledger) (t1 t2 t3 t4 : Transaction.t)
  (rest : list Transaction.t) :
  findAllOfGroups (Transaction.TransactionGroup transaction)
                  (Transaction.TransactionGroup refund) (rows w)
  = t1 :: t2 :: t3 :: t4 :: rest ->
  exists u1 u2 u3 u4,
    associateTransactionRefundId transaction refund data w
    = (Js.Return (findById (Transaction.id transaction) [u1; u2; u3; u4]),
       {| rows := replaceRow u4 (replaceRow u3 (replaceRow u2 (replaceRow u1 (rows w))));
          journal := journal w ++ [Save (Transaction.id t1); Save (Transaction.id t2);
                                   Save (Transaction.id t3); Save (Transaction.id t4)] |})
    /\ (Transaction.id u1 = Transaction.id t1 /\ Transaction.id u2 = Transaction.id t2
        /\ Transaction.id u3 = Transaction.id t3 /\ Transaction.id u4 = Transaction.id t4)
    /\ (Transaction.TransactionGroup u1 = Transaction.TransactionGroup t1
        /\ Transaction.TransactionGroup u2 = Transaction.TransactionGroup t2
        /\ Transaction.TransactionGroup u3 = Transaction.TransactionGroup t3
        /\ Transaction.TransactionGroup u4 = Transaction.TransactionGroup t4)
    /\ (Transaction.RefundTransactionId u1 = Some (Transaction.id t4)
        /\ Transaction.RefundTransactionId u2 = Some (Transaction.id t3)
        /\ Transaction.RefundTransactionId u3 = Some (Transaction.id t2)
        /\ Transaction.RefundTransactionId u4 = Some (Transaction.id t1)).
Proof.
  intros Hrows. unfold associateTransactionRefundId. rewrite Hrows.
  unfold bind, save, ret. cbn [rows journal].
  repeat rewrite <- app_assoc. cbn [app].
  destruct data; do 4 eexists; (split; [reflexivity | cbn; repeat split]).
Qed.

(** C5.  When the group of a transaction and the group of its refund hold
    four rows in all, [tr1 .. tr4] in the order of their ids, then after
    [associateTransactionRefundId] these rows are linked two by two, [tr1]
    with [tr4] and [tr2] with [tr3], and the function returns the updated row
    that has the id of the transaction it was given. *)
Theorem associateTransactionRefundId_links (transaction refund : Transaction.t)
  (data : option Js.object) (w : Ledger) (t1 t2 t3 t4 : Transaction.t)
  (Hkeys : NoDup (map Transaction.id (rows w)))
  (Hrows : findAllOfGroups (Transaction.TransactionGroup transaction)
                           (Transaction.TransactionGroup refund) (rows w)
           = [t1; t2; t3; t4])
  (Hgiven : In (Transaction.id transaction) (map Transaction.id [t1; t2; t3; t4])) :
  exists tr1 tr2 tr3 tr4 returned w',
    associateTransactionRefundId transaction refund data w = (Js.Return (Some returned), w')
    /\ findAllOfGroups (Transaction.TransactionGroup transaction)
                       (Transaction.TransactionGroup refund) (rows w')
       = [tr1; tr2; tr3; tr4]
    /\ (Transaction.id tr1 < Transaction.id tr2)%positive
    /\ (Transaction.id tr2 < Transaction.id tr3)%positive
    /\ (Transaction.id tr3 < Transaction.id tr4)%positive
    /\ map Transaction.id [tr1; tr2; tr3; tr4] = map Transaction.id [t1; t2; t3; t4]
    /\ Transaction.RefundTransactionId tr1 = Some (Transaction.id tr4)
    /\ Transaction.RefundTransactionId tr4 = Some (Transaction.id tr1)
    /\ Transaction.RefundTransactionId tr2 = Some (Transaction.id tr3)
    /\ Transaction.RefundTransactionId tr3 = Some (Transaction.id tr2)
    /\ In returned [tr1; tr2; tr3; tr4]
    /\ Transaction.id returned = Transaction.id transaction.
Proof.
  set (g1 := Transaction.TransactionGroup transaction) in *.
  set (g2 := Transaction.TransactionGroup refund) in *.
  pose proof (findAllOfGroups_keys g1 g2 _ Hkeys) as Hnd. rewrite Hrows in Hnd.
  assert (Hsorted : Sorted byId (findAllOfGroups g1 g2 (rows w)))
    by apply orderById_sorted.
  rewrite Hrows in Hsorted.
  destruct (sorted_four_strict _ _ _ _ Hsorted Hnd) as (H12 & H23 & H34).
  assert (Hin : forall x, In x [t1; t2; t3; t4] -> In x (rows w)).
  { intros x Hx. apply (findAllOfGroups_In g1 g2). rewrite Hrows. exact Hx. }
  destruct (associateTransactionRefundId_run transaction refund data w
              t1 t2 t3 t4 [] Hrows)
    as (u1 & u2 & u3 & u4 & Hrun & (I1 & I2 & I3 & I4) & (G1 & G2 & G3 & G4)
        & (R1 & R2 & R3 & R4)).
  destruct (findById_present (Transaction.id transaction) [u1; u2; u3; u4])
    as (returned & Hfound & Hreturned & Hid).
  { cbn [map] in *. rewrite I1, I2, I3, I4. exact Hgiven. }
  exists u1, u2, u3, u4, returned. eexists.
  split; [rewrite Hrun, Hfound; reflexivity|].
  cbn [rows]. split.
  - rewrite (findAllOfGroups_replaceRow g1 g2 _ u4 t4);
      [ | rewrite !replaceRow_keys; exact Hkeys
        | repeat apply replaceRow_other; [apply Hin; cbn; tauto | lia ..]
        | exact I4 | exact G4 ].
    rewrite (findAllOfGroups_replaceRow g1 g2 _ u3 t3);
      [ | rewrite !replaceRow_keys; exact Hkeys
        | repeat apply replaceRow_other; [apply Hin; cbn; tauto | lia ..]
        | exact I3 | exact G3 ].
    rewrite (findAllOfGroups_replaceRow g1 g2 _ u2 t2);
      [ | rewrite !replaceRow_keys; exact Hkeys
        | repeat apply replaceRow_other; [apply Hin; cbn; tauto | lia ..]
        | exact I2 | exact G2 ].
    rewrite (findAllOfGroups_replaceRow g1 g2 _ u1 t1);
      [ | exact Hkeys | apply Hin; cbn; tauto | exact I1 | exact G1 ].
    rewrite Hrows. apply replaceRow_four; assumption.
  - cbn [map]. rewrite I1, I2, I3, I4, R1, R2, R3, R4.
    repeat split; assumption.
Qed.

(** C4, as stated, fails: linking a contribution and its refund saves four
    rows, one after the other. *)
Lemma associateTransactionRefundId_saves_four_rows :
  journal (snd (associateTransactionRefundId Sample.credit
                  (Sample.row 4%positive TransactionType.CREDIT "g2" None)
                  None Sample.unlinked))
  = [Save 1%positive; Save 2%positive; Save 3%positive; Save 4%positive].
Proof. reflexivity. Qed.

(** C4, amended.  One call of [save] writes one row; an operation may make
    several: when the two groups hold at least four rows,
    [associateTransactionRefundId] saves exactly the first four in the order
    of their ids, each once, and leaves every other row of the table as it
    was. *)
Theorem associateTransactionRefundId_writes (transaction refund : Transaction.t)
  (data : option Js.object) (w : Ledger) (t1 t2 t3 t4 : Transaction.t)
  (rest : list Transaction.t)
  (Hrows : findAllOfGroups (Transaction.TransactionGroup transaction)
                           (Transaction.TransactionGroup refund) (rows w)
           = t1 :: t2 :: t3 :: t4 :: rest) :
  let w' := snd (associateTransactionRefundId transaction refund data w) in
  journal w' = journal w ++ map Save (map Transaction.id [t1; t2; t3; t4])
  /\ (forall x, In x (rows w) ->
                ~ In (Transaction.id x) (map Transaction.id [t1; t2; t3; t4]) ->
                In x (rows w'))
  /\ map Transaction.id (rows w') = map Transaction.id (rows w).
Proof.
  destruct (associateTransactionRefundId_run transaction refund data w
              t1 t2 t3 t4 rest Hrows)
    as (u1 & u2 & u3 & u4 & Hrun & (I1 & I2 & I3 & I4) & _).
  cbn zeta. rewrite Hrun. cbn [snd rows journal map]. repeat split.
  - intros x Hx Hother. cbn [In] in Hother.
    repeat apply replaceRow_other; [exact Hx | intuition congruence ..].
  - rewrite !replaceRow_keys. reflexivity.
Qed.

(** Linking the sample contribution and its refund returns the row 2. *)
Lemma associateTransactionRefundId_links_witness :
  exists returned w',
    associateTransactionRefundId Sample.credit
      (Sample.row 4%positive TransactionType.CREDIT "g2" None) None Sample.unlinked
    = (Js.Return (Some returned), w')
    /\ Transaction.id returned = 2%positive.
Proof.
  destruct (associateTransactionRefundId_links Sample.credit
              (Sample.row 4%positive TransactionType.CREDIT "g2" None) None
              Sample.unlinked
              (Sample.row 1%positive TransactionType.DEBIT "g1" None)
              (Sample.row 2%positive TransactionType.CREDIT "g1" None)
              (Sample.row 3%positive TransactionType.DEBIT "g2" None)
              (Sample.row 4%positive TransactionType.CREDIT "g2" None))
    as (tr1 & tr2 & tr3 & tr4 & returned & w' & Hrun & _ & _ & _ & _ & _
        & _ & _ & _ & _ & _ & Hid).
  - cbn. repeat (constructor; [cbn; intuition discriminate|]). constructor.
  - reflexivity.
  - cbn. tauto.
  - exists returned, w'. split; [exact Hrun | exact Hid].
Defined.

(** The four saves made for the sample contribution and its refund. *)
Lemma associateTransactionRefundId_writes_witness :
  journal (snd (associateTransactionRefundId Sample.credit
                  (Sample.row 4%positive TransactionType.CREDIT "g2" None)
                  None Sample.unlinked))
  = [] ++ map Save [1%positive; 2%positive; 3%positive; 4%positive].
Proof.
  apply (associateTransactionRefundId_writes Sample.credit
           (Sample.row 4%positive TransactionType.CREDIT "g2" None) None
           Sample.unlinked
           (Sample.row 1%positive TransactionType.DEBIT "g1" None)
           (Sample.row 2%positive TransactionType.CREDIT "g1" None)
           (Sample.row 3%positive TransactionType.DEBIT "g2" None)
           (Sample.row 4%positive TransactionType.CREDIT "g2" None) []).
  reflexivity.
Defined.

(** ** Refunds *)

Section RefundProperties.

Variable netAmount : Transaction.t -> Z.
Variable createDoubleEntry :
  RefundEntry.t -> list Transaction.t -> Js.completion Transaction.t * list Transaction.t.
Variable getPlatformTipTransaction :
  Transaction.t -> list Transaction.t -> option Transaction.t.

Lemma find_all_false {A : Type} (p : A -> bool) (l : list A) :
  (forall x, In x l -> p x = false) -> List.find p l = None.
Proof.
  induction l as [|a rest IH]; intros Hall; [reflexivity|].
  cbn [List.find]. rewrite (Hall a (or_introl eq_refl)).
  apply IH. intros x Hx. apply Hall. right. exact Hx.
Qed.

Lemma creditOfGroup_found (transaction c : Transaction.t) (l : list Transaction.t) :
  creditOfGroup transaction c l -> findCreditTransaction transaction l = Some c.
Proof.
  intros [Hc [-> | [Hdebit Hothers]]]; unfold findCreditTransaction.
  - rewrite Hc. reflexivity.
  - rewrite Hdebit. cbn [TransactionType.eqb]. unfold findOtherOfGroup.
    revert Hothers.
    induction l as [|x rest IH]; cbn [filter List.find]; [discriminate|].
    match goal with |- context [if ?b then _ else _] => destruct b end.
    + intros H. injection H as -> _. reflexivity.
    + exact IH.
Qed.





(** C3.  [createRefundTransaction] throws "This transaction has already been
    refunded" when the CREDIT row of the double entry carries a
    [RefundTransactionId], and "Cannot find any CREDIT transaction to refund"
    when it is called with a transaction that is not a CREDIT and whose group
    holds no other row; in both cases the table and the journal of writes
    are left as they were. *)
Theorem createRefundTransaction_guards :
  (forall (transaction c : Transaction.t) (refundedPaymentProcessorFee : Z)
          (data : option Js.object) (user : option User.t) (w : Ledger) (r : Id),
      creditOfGroup transaction c (rows w) ->
      Transaction.RefundTransactionId c = Some r ->
      createRefundTransaction netAmount createDoubleEntry getPlatformTipTransaction
        transaction refundedPaymentProcessorFee data user w
      = (Js.Throw (Js.Error "This transaction has already been refunded"), w))
  /\ (forall (transaction : Transaction.t) (refundedPaymentProcessorFee : Z)
             (data : option Js.object) (user : option User.t) (w : Ledger),
         Transaction.type transaction <> TransactionType.CREDIT ->
         (forall x, In x (rows w) ->
                    Transaction.TransactionGroup x = Transaction.TransactionGroup transaction ->
                    Transaction.id x = Transaction.id transaction) ->
         createRefundTransaction netAmount createDoubleEntry getPlatformTipTransaction
           transaction refundedPaymentProcessorFee data user w
         = (Js.Throw (Js.Error "Cannot find any CREDIT transaction to refund"), w)).
Proof.
  split.
  - intros transaction c fee data user w r Hcredit Hrefunded.
    unfold createRefundTransaction, bind at 1. unfold creditTransactionRefund.
    rewrite (creditOfGroup_found _ _ _ Hcredit), Hrefunded. reflexivity.
  - intros transaction fee data user w Htype Halone.
    unfold createRefundTransaction, bind at 1. unfold creditTransactionRefund.
    assert (Hnone : findCreditTransaction transaction (rows w) = None).
    { unfold findCreditTransaction.
      destruct (Transaction.type transaction); [congruence|].
      cbn [TransactionType.eqb]. unfold findOtherOfGroup.
      apply find_all_false. intros x Hx.
      destruct (String.eqb_spec (Transaction.TransactionGroup x)
                                (Transaction.TransactionGroup transaction)) as [Hg|Hg];
        [|reflexivity].
      rewrite (Halone x Hx Hg), Pos.eqb_refl. reflexivity. }
    rewrite Hnone. reflexivity.
Qed.

End RefundProperties.


(** A contribution refunded twice, and a DEBIT row alone in its group. *)
Lemma createRefundTransaction_guards_witness :
  createRefundTransaction Sample.netAmount Sample.createDoubleEntry Sample.noPlatformTip
    (Sample.row 1%positive TransactionType.DEBIT "g1" (Some 4%positive))
    30 None None Sample.refunded
  = (Js.Throw (Js.Error "This transaction has already been refunded"), Sample.refunded)
  /\ createRefundTransaction Sample.netAmount Sample.createDoubleEntry
       Sample.noPlatformTip Sample.debit 30 None None Sample.orphan
     = (Js.Throw (Js.Error "Cannot find any CREDIT transaction to refund"), Sample.orphan).
Proof.
  split.
  - apply (proj1 (createRefundTransaction_guards Sample.netAmount
                    Sample.createDoubleEntry Sample.noPlatformTip)
             (Sample.row 1%positive TransactionType.DEBIT "g1" (Some 4%positive))
             (Sample.row 2%positive TransactionType.CREDIT "g1" (Some 3%positive))
             30 None None Sample.refunded 3%positive).
    + split; [reflexivity|]. right. split; reflexivity.
    + reflexivity.
  - apply (proj2 (createRefundTransaction_guards Sample.netAmount
                    Sample.createDoubleEntry Sample.noPlatformTip)).
    + discriminate.
    + intros x [<- | []] _. reflexivity.
Defined.


(* ================================================================== *)
(** * Further properties *)

(** ** Host fee percentage *)

(** Settles the comparisons of a service or type with string literals, one
    after the other. *)
Ltac decide_literals :=
  repeat match goal with
         | |- context [String.eqb ?x ?lit] =>
             is_var x;
             let E := fresh "E" in
             destruct (String.eqb x lit) eqn:E;
             [apply String.eqb_eq in E; subst x | clear E];
             cbn
         end.

(** X1.  For an order whose collective is not a host account and whose host
    is known whenever the payment service has host settings (bank transfer,
    stripe, paypal), [getHostFeePercent] returns the first number among: the
    percentage fixed on the order; the collective's, then the host's setting
    for the payment service (0 for payments from a balance); the collective's
    [hostFeePercent]; the platform default. *)
Theorem getHostFeePercent_precedence (defaults : FeesDefault)
  (getHostCollective : Collective.t -> option Collective.t)
  (o : Order.t) (host : option Collective.t) (h : Collective.t)
  (Hcollective : Collective.isHostAccount (Order.collective o) = false)
  (Hhost : readsHostSettings (Order.paymentMethod o) = true ->
           hostOrLookup getHostCollective o host = Some h) :
  getHostFeePercent defaults getHostCollective o host
  = Js.Return (firstNumber (hostFeePrecedence defaults o h)).
Proof.
  unfold getHostFeePercent, hostFeePrecedence, readsHostSettings, hostFeeSource,
    isManual, pushCollectiveThenHost, PaymentMethod.serviceIs, PaymentMethod.typeIs in *.
  rewrite Hcollective. rewrite <- find_isNumber_firstNumber.
  destruct (PaymentMethod.service (Order.paymentMethod o)) as [s|];
    destruct (PaymentMethod.type (Order.paymentMethod o)) as [t|];
    cbn; try reflexivity;
    decide_literals;
    try rewrite (Hhost eq_refl); cbn;
    repeat rewrite <- app_assoc; try reflexivity.
Qed.

(** The waterfall of a credit card order whose host is passed. *)
Lemma getHostFeePercent_precedence_witness :
  getHostFeePercent Sample.defaults Sample.noHost
    (Sample.order Sample.creditCard Sample.collective None) (Some Cases.host)
  = Js.Return (firstNumber
                 (hostFeePrecedence Sample.defaults
                    (Sample.order Sample.creditCard Sample.collective None) Cases.host)).
Proof.
  apply (getHostFeePercent_precedence Sample.defaults Sample.noHost
           (Sample.order Sample.creditCard Sample.collective None)
           (Some Cases.host) Cases.host).
  - reflexivity.
  - intros _. reflexivity.
Defined.

(** X2.  When the collective is not a host account, no host is passed nor
    found, and the payment service has host settings (bank transfer, stripe,
    paypal), [getHostFeePercent] throws a [TypeError], whatever the order
    fixes. *)
Theorem getHostFeePercent_without_host (defaults : FeesDefault)
  (getHostCollective : Collective.t -> option Collective.t)
  (o : Order.t) (host : option Collective.t)
  (Hcollective : Collective.isHostAccount (Order.collective o) = false)
  (Hnone : hostOrLookup getHostCollective o host = None)
  (Hreads : readsHostSettings (Order.paymentMethod o) = true) :
  getHostFeePercent defaults getHostCollective o host = Js.Throw Js.TypeError.
Proof.
  unfold getHostFeePercent, readsHostSettings, hostFeeSource,
    isManual, pushCollectiveThenHost, PaymentMethod.serviceIs, PaymentMethod.typeIs in *.
  rewrite Hcollective, Hnone.
  destruct (PaymentMethod.service (Order.paymentMethod o)) as [s|];
    destruct (PaymentMethod.type (Order.paymentMethod o)) as [t|];
    cbn in *; try discriminate;
    revert Hreads; decide_literals; intros Hreads;
    try discriminate; reflexivity.
Qed.

(** A credit card order for a collective without host. *)
Lemma getHostFeePercent_without_host_witness :
  getHostFeePercent Sample.defaults Sample.noHost
    (Sample.order Sample.creditCard Sample.collective None) None
  = Js.Throw Js.TypeError.
Proof.
  apply (getHostFeePercent_without_host Sample.defaults Sample.noHost
           (Sample.order Sample.creditCard Sample.collective None) None);
    reflexivity.
Defined.



(** ** Building a refund *)

Lemma get_set (o : Js.object) (k k' : string) (v : Js.value) :
  Js.get (Js.set o k v) k' = if String.eqb k k' then v else Js.get o k'.
Proof.
  induction o as [|[k0 v0] rest IH]; cbn [Js.set Js.get].
  - destruct (String.eqb k k'); reflexivity.
  - destruct (String.eqb_spec k0 k) as [->|Hne]; cbn [Js.get].
    + destruct (String.eqb k k'); reflexivity.
    + rewrite IH. destruct (String.eqb_spec k0 k') as [->|Hne'].
      * apply String.eqb_neq in Hne. rewrite String.eqb_sym, Hne. reflexivity.
      * reflexivity.
Qed.

Lemma has_false_get (o : Js.object) (k : string) :
  Js.has o k = false -> Js.get o k = Js.Undefined.
Proof.
  induction o as [|[k0 v0] rest IH]; cbn [Js.has Js.get]; [reflexivity|].
  destruct (String.eqb k0 k); cbn [orb]; [discriminate | exact IH].
Qed.

Lemma has_in_keys (o : Js.object) (k : string) :
  Js.has o k = true -> In k (map fst o).
Proof.
  induction o as [|[k0 v0] rest IH]; cbn [Js.has map fst In]; [discriminate|].
  destruct (String.eqb_spec k0 k) as [->|Hne]; cbn [orb]; [left; reflexivity|].
  intros H. right. apply IH. exact H.
Qed.

(** Spreading [b] over [a]: the properties of [b] win. *)
Lemma get_spread (a b : Js.object) (k : string) :
  NoDup (map fst b) ->
  Js.get (fold_left (fun o kv => Js.set o (fst kv) (snd kv)) b a) k
  = if Js.has b k then Js.get b k else Js.get a k.
Proof.
  revert a. induction b as [|[k1 v1] rest IH]; intros a Hnd; cbn [fold_left Js.has Js.get].
  - reflexivity.
  - cbn [map fst] in Hnd. inversion Hnd as [|? ? Hnotin Hnd']; subst.
    rewrite IH by exact Hnd'. cbn [fst snd]. rewrite get_set.
    destruct (String.eqb_spec k1 k) as [->|Hne]; cbn [orb].
    + destruct (Js.has rest k) eqn:Hhas; [|reflexivity].
      exfalso. apply Hnotin. apply has_in_keys. exact Hhas.
    + reflexivity.
Qed.

Section BuildRefund.

Variable netAmount : Transaction.t -> Z.

(** X4.  Whatever the payment processor refunds of its fee, the fees a
    refund gives back add up to the fees the refunded transaction bore: the
    part of the processor fee that is not refunded is borne by the host. *)
Theorem buildRefund_total_fees (refundedPaymentProcessorFee : Z)
  (data : option Js.object) (user : option User.t) (t : Transaction.t) :
  let refund := buildRefund netAmount refundedPaymentProcessorFee data user t in
  RefundEntry.hostFeeInHostCurrency refund
  + RefundEntry.platformFeeInHostCurrency refund
  + RefundEntry.paymentProcessorFeeInHostCurrency refund
  = - (Transaction.hostFeeInHostCurrency t
       + Transaction.platformFeeInHostCurrency t
       + Transaction.paymentProcessorFeeInHostCurrency t).
Proof.
  cbn zeta. unfold buildRefund.
  cbn [RefundEntry.hostFeeInHostCurrency RefundEntry.platformFeeInHostCurrency
       RefundEntry.paymentProcessorFeeInHostCurrency].
  destruct (refundedPaymentProcessorFee =? 0)%Z; lia.
Qed.

(** X5.  The data of a refund holds the properties of the [data] it is
    given, each with its value, then [isFeesOnTop] of the refunded
    transaction unless [data] has it, and nothing else. *)
Theorem buildRefund_data (refundedPaymentProcessorFee : Z)
  (data : Js.object) (user : option User.t) (t : Transaction.t) (key : string)
  (Hkeys : NoDup (map fst data)) :
  Js.get (RefundEntry.data
            (buildRefund netAmount refundedPaymentProcessorFee (Some data) user t)) key
  = if Js.has data key then Js.get data key
    else if String.eqb key "isFeesOnTop"
         then Js.optGet (Transaction.data t) "isFeesOnTop"
         else Js.Undefined.
Proof.
  unfold buildRefund. cbn [RefundEntry.data]. unfold Js.spread.
  rewrite get_spread by exact Hkeys.
  destruct (Js.has data key); [reflexivity|].
  unfold pickIsFeesOnTop, Js.optGet.
  destruct (Transaction.data t) as [o|]; cbn [Js.get].
  - destruct (Js.has o "isFeesOnTop") eqn:Hhas; cbn [Js.get].
    + rewrite String.eqb_sym. destruct (String.eqb key "isFeesOnTop"); reflexivity.
    + rewrite (has_false_get _ _ Hhas).
      destruct (String.eqb key "isFeesOnTop"); reflexivity.
  - destruct (String.eqb key "isFeesOnTop"); reflexivity.
Qed.

End BuildRefund.

(** The refund of a contribution with fees on top, given the refund object
    of the processor. *)
Lemma buildRefund_data_witness :
  Js.get (RefundEntry.data
            (buildRefund Sample.netAmount 0 (Some [("refund", Js.String "re_1")]) None
               Sample.credit)) "refund"
  = Js.String "re_1".
Proof.
  apply (buildRefund_data Sample.netAmount 0 [("refund", Js.String "re_1")] None
           Sample.credit "refund").
  repeat constructor. intros [].
Defined.

(** ** Linking, further *)



Lemma associateTransactionRefundId_linked (transaction refund : Transaction.t)
  (data : option Js.object) (w : Ledger) (t1 t2 t3 t4 : Transaction.t)
  (rest : list Transaction.t) :
  findAllOfGroups (Transaction.TransactionGroup transaction)
                  (Transaction.TransactionGroup refund) (rows w)
  = t1 :: t2 :: t3 :: t4 :: rest ->
  let u1 := linked data true (Transaction.id t4) t1 in
  let u2 := linked data true (Transaction.id t3) t2 in
  let u3 := linked data false (Transaction.id t2) t3 in
  let u4 := linked data false (Transaction.id t1) t4 in
  associateTransactionRefundId transaction refund data w
  = (Js.Return (findById (Transaction.id transaction) [u1; u2; u3; u4]),
     {| rows := replaceRow u4 (replaceRow u3 (replaceRow u2 (replaceRow u1 (rows w))));
        journal := journal w ++ [Save (Transaction.id t1); Save (Transaction.id t2);
                                 Save (Transaction.id t3); Save (Transaction.id t4)] |}).
Proof.
  intros Hrows. cbn zeta. unfold associateTransactionRefundId. rewrite Hrows.
  unfold bind, save, ret, linked. cbn [rows journal].
  repeat rewrite <- app_assoc. cbn [app].
  destruct data; reflexivity.
Qed.

Lemma linked_key data first partner t :
  Transaction.id (linked data first partner t) = Transaction.id t.
Proof. unfold linked. destruct data, first; reflexivity. Qed.

Lemma linked_group data first partner t :
  Transaction.TransactionGroup (linked data first partner t)
  = Transaction.TransactionGroup t.
Proof. unfold linked. destruct data, first; reflexivity. Qed.

Lemma linked_sameBooking data first partner t :
  sameBooking t (linked data first partner t).
Proof. unfold sameBooking, linked. destruct data, first; reflexivity. Qed.

Lemma linked_twice data first partner t :
  linked data first partner (linked data first partner t) = linked data first partner t.
Proof. unfold linked. destruct data, first; reflexivity. Qed.

Lemma Forall2_within {A : Type} (R : A -> A -> Prop) (f : A -> A) (l : list A) :
  (forall x, In x l -> R x (f x)) -> Forall2 R l (map f l).
Proof.
  induction l as [|a rest IH]; intros H; cbn [map]; constructor.
  - apply H. left. reflexivity.
  - apply IH. intros x Hx. apply H. right. exact Hx.
Qed.

Lemma Forall2_sameBooking_trans (l1 l2 l3 : list Transaction.t) :
  Forall2 sameBooking l1 l2 -> Forall2 sameBooking l2 l3 -> Forall2 sameBooking l1 l3.
Proof.
  intros H12. revert l3. induction H12 as [|x y l l' Hxy _ IH]; intros l3 H23.
  - inversion H23. constructor.
  - inversion H23 as [|? z ? l'' Hyz Hrest]; subst. constructor.
    + unfold sameBooking in *. congruence.
    + apply IH. exact Hrest.
Qed.

Lemma replaceRow_sameBooking (l : list Transaction.t) (t u : Transaction.t) :
  NoDup (map Transaction.id l) -> In t l ->
  Transaction.id u = Transaction.id t -> sameBooking t u ->
  Forall2 sameBooking l (replaceRow u l).
Proof.
  intros Hnd Ht Hid Hsame. unfold replaceRow. apply Forall2_within.
  intros x Hx.
  destruct (Pos.eqb_spec (Transaction.id x) (Transaction.id u)) as [Heq|_];
    [|reflexivity].
  assert (x = t) as -> by (apply (same_key_same_row l); congruence).
  exact Hsame.
Qed.

Lemma first_four_distinct (t1 t2 t3 t4 : Transaction.t) (rest : list Transaction.t) :
  NoDup (map Transaction.id (t1 :: t2 :: t3 :: t4 :: rest)) ->
  NoDup (map Transaction.id [t1; t2; t3; t4]).
Proof.
  intros Hnd.
  change (t1 :: t2 :: t3 :: t4 :: rest) with ([t1; t2; t3; t4] ++ rest) in Hnd.
  rewrite map_app in Hnd. apply NoDup_app_remove_r in Hnd. exact Hnd.
Qed.

(** X7.  On a table with unique primary keys,
    [associateTransactionRefundId] alters nothing but [RefundTransactionId]
    and [data]: row by row, the table afterwards carries the same ids,
    types, groups, amounts, fees and references as before, whether it
    succeeds or throws. *)
Theorem associateTransactionRefundId_keeps_bookings (transaction refund : Transaction.t)
  (data : option Js.object) (w : Ledger)
  (Hkeys : NoDup (map Transaction.id (rows w))) :
  Forall2 sameBooking (rows w)
          (rows (snd (associateTransactionRefundId transaction refund data w))).
Proof.
  assert (Hrefl : Forall2 sameBooking (rows w) (rows w)).
  { rewrite <- (map_id (rows w)) at 2. apply Forall2_within. reflexivity. }
  destruct (findAllOfGroups (Transaction.TransactionGroup transaction)
                            (Transaction.TransactionGroup refund) (rows w))
    as [|t1 [|t2 [|t3 [|t4 rest]]]] eqn:Hrows;
    try (unfold associateTransactionRefundId; rewrite Hrows; exact Hrefl).
  rewrite (associateTransactionRefundId_linked _ _ data _ _ _ _ _ _ Hrows).
  cbn [snd rows].
  pose proof (findAllOfGroups_keys (Transaction.TransactionGroup transaction)
                (Transaction.TransactionGroup refund) _ Hkeys) as Hnd.
  rewrite Hrows in Hnd. apply first_four_distinct in Hnd.
  cbn [map] in Hnd.
  inversion Hnd as [|? ? Hn1 Hnd1]; subst.
  inversion Hnd1 as [|? ? Hn2 Hnd2]; subst.
  inversion Hnd2 as [|? ? Hn3 Hnd3]; subst.
  cbn [In] in Hn1, Hn2, Hn3.
  assert (Hin : forall x, In x [t1; t2; t3; t4] -> In x (rows w)).
  { intros x Hx.
    apply (findAllOfGroups_In (Transaction.TransactionGroup transaction)
             (Transaction.TransactionGroup refund)).
    rewrite Hrows. cbn [In] in *. tauto. }
  assert (Hstep : forall l t u,
             Forall2 sameBooking (rows w) l ->
             NoDup (map Transaction.id l) -> In t l ->
             Transaction.id u = Transaction.id t -> sameBooking t u ->
             Forall2 sameBooking (rows w) (replaceRow u l)).
  { intros l t u Hl Hndl Ht Hid Hsame.
    apply (Forall2_sameBooking_trans _ l); [exact Hl|].
    apply (replaceRow_sameBooking l t); assumption. }
  apply (Hstep _ t4);
    [ apply (Hstep _ t3);
      [ apply (Hstep _ t2);
        [ apply (Hstep _ t1); [exact Hrefl | exact Hkeys | | | ] | | | | ] | | | | ] | | | | ];
    try apply linked_key; try apply linked_sameBooking;
    try (rewrite ?replaceRow_keys; exact Hkeys);
    repeat apply replaceRow_other;
    try (apply Hin; cbn [In]; tauto);
    rewrite ?linked_key; intuition congruence.
Qed.

(** The sample table, where a contribution and its refund wait to be linked. *)
Lemma associateTransactionRefundId_keeps_bookings_witness :
  Forall2 sameBooking (rows Sample.unlinked)
    (rows (snd (associateTransactionRefundId Sample.credit
                  (Sample.row 4%positive TransactionType.CREDIT "g2" None)
                  None Sample.unlinked))).
Proof.
  apply (associateTransactionRefundId_keeps_bookings Sample.credit
           (Sample.row 4%positive TransactionType.CREDIT "g2" None) None Sample.unlinked).
  cbn. repeat (constructor; [cbn; intuition discriminate|]). constructor.
Defined.

Lemma replaceRow_present (l : list Transaction.t) (u : Transaction.t) :
  NoDup (map Transaction.id l) -> In u l -> replaceRow u l = l.
Proof.
  intros Hnd Hu. unfold replaceRow. rewrite <- (map_id l) at 2.
  apply map_ext_in. intros x Hx.
  destruct (Pos.eqb_spec (Transaction.id x) (Transaction.id u)) as [Heq|_];
    [|reflexivity].
  symmetry. apply (same_key_same_row l); assumption.
Qed.

Lemma findAllOfGroups_group g1 g2 l x :
  In x (findAllOfGroups g1 g2 l) ->
  Transaction.TransactionGroup x = g1 \/ Transaction.TransactionGroup x = g2.
Proof.
  unfold findAllOfGroups. intros Hx.
  apply (Permutation_in _ (orderById_perm _)) in Hx.
  apply filter_In in Hx. destruct Hx as [_ Hx].
  apply orb_true_iff in Hx. destruct Hx as [Hx|Hx]; apply String.eqb_eq in Hx; tauto.
Qed.

Lemma findAllOfGroups_complete g1 g2 l x :
  In x l ->
  Transaction.TransactionGroup x = g1 \/ Transaction.TransactionGroup x = g2 ->
  In x (findAllOfGroups g1 g2 l).
Proof.
  intros Hx Hg. unfold findAllOfGroups.
  apply (Permutation_in _ (Permutation_sym (orderById_perm _))).
  apply filter_In. split; [exact Hx|].
  apply orb_true_iff. destruct Hg as [<-|<-]; [left|right]; apply String.eqb_refl.
Qed.

(** The query of [associateTransactionRefundId], once four instances with
    the keys and groups of the four rows found have been saved. *)
Lemma findAllOfGroups_after_saves g1 g2 (l : list Transaction.t)
  (t1 t2 t3 t4 u1 u2 u3 u4 : Transaction.t) :
  NoDup (map Transaction.id l) ->
  findAllOfGroups g1 g2 l = [t1; t2; t3; t4] ->
  Transaction.id u1 = Transaction.id t1 -> Transaction.id u2 = Transaction.id t2 ->
  Transaction.id u3 = Transaction.id t3 -> Transaction.id u4 = Transaction.id t4 ->
  Transaction.TransactionGroup u1 = Transaction.TransactionGroup t1 ->
  Transaction.TransactionGroup u2 = Transaction.TransactionGroup t2 ->
  Transaction.TransactionGroup u3 = Transaction.TransactionGroup t3 ->
  Transaction.TransactionGroup u4 = Transaction.TransactionGroup t4 ->
  findAllOfGroups g1 g2 (replaceRow u4 (replaceRow u3 (replaceRow u2 (replaceRow u1 l))))
  = [u1; u2; u3; u4].
Proof.
  intros Hkeys Hrows I1 I2 I3 I4 G1 G2 G3 G4.
  pose proof (findAllOfGroups_keys g1 g2 _ Hkeys) as Hnd. rewrite Hrows in Hnd.
  assert (Hin : forall x, In x [t1; t2; t3; t4] -> In x l).
  { intros x Hx. apply (findAllOfGroups_In g1 g2). rewrite Hrows. exact Hx. }
  assert (Hne : NoDup (map Transaction.id [t1; t2; t3; t4])) by exact Hnd.
  cbn [map] in Hnd.
  inversion Hnd as [|? ? Hn1 Hnd1]; subst.
  inversion Hnd1 as [|? ? Hn2 Hnd2]; subst.
  inversion Hnd2 as [|? ? Hn3 Hnd3]; subst.
  cbn [In] in Hn1, Hn2, Hn3.
  rewrite (findAllOfGroups_replaceRow g1 g2 _ u4 t4);
    [ | rewrite !replaceRow_keys; exact Hkeys
      | repeat apply replaceRow_other; [apply Hin; cbn; tauto | intuition congruence ..]
      | exact I4 | exact G4 ].
  rewrite (findAllOfGroups_replaceRow g1 g2 _ u3 t3);
    [ | rewrite !replaceRow_keys; exact Hkeys
      | repeat apply replaceRow_other; [apply Hin; cbn; tauto | intuition congruence ..]
      | exact I3 | exact G3 ].
  rewrite (findAllOfGroups_replaceRow g1 g2 _ u2 t2);
    [ | rewrite !replaceRow_keys; exact Hkeys
      | repeat apply replaceRow_other; [apply Hin; cbn; tauto | intuition congruence ..]
      | exact I2 | exact G2 ].
  rewrite (findAllOfGroups_replaceRow g1 g2 _ u1 t1);
    [ | exact Hkeys | apply Hin; cbn; tauto | exact I1 | exact G1 ].
  rewrite Hrows. apply replaceRow_four; assumption.
Qed.

(** X8.  Linking is idempotent: when the two groups hold four rows, calling
    [associateTransactionRefundId] a second time with the same arguments
    leaves the table as the first call left it. *)
Theorem associateTransactionRefundId_idempotent (transaction refund : Transaction.t)
  (data : option Js.object) (w : Ledger) (t1 t2 t3 t4 : Transaction.t)
  (Hkeys : NoDup (map Transaction.id (rows w)))
  (Hrows : findAllOfGroups (Transaction.TransactionGroup transaction)
                           (Transaction.TransactionGroup refund) (rows w)
           = [t1; t2; t3; t4]) :
  let once := snd (associateTransactionRefundId transaction refund data w) in
  rows (snd (associateTransactionRefundId transaction refund data once)) = rows once.
Proof.
  cbn zeta.
  rewrite (associateTransactionRefundId_linked _ _ data _ _ _ _ _ _ Hrows).
  cbn [snd].
  set (u1 := linked data true (Transaction.id t4) t1).
  set (u2 := linked data true (Transaction.id t3) t2).
  set (u3 := linked data false (Transaction.id t2) t3).
  set (u4 := linked data false (Transaction.id t1) t4).
  set (once := {| rows := replaceRow u4 (replaceRow u3 (replaceRow u2 (replaceRow u1 (rows w))));
                  journal := _ |}).
  assert (Hfound : findAllOfGroups (Transaction.TransactionGroup transaction)
                     (Transaction.TransactionGroup refund) (rows once)
                   = [u1; u2; u3; u4]).
  { subst once. cbn [rows].
    apply (findAllOfGroups_after_saves _ _ _ t1 t2 t3 t4); try assumption;
      subst u1 u2 u3 u4; try apply linked_key; apply linked_group. }
  assert (Hkeys' : NoDup (map Transaction.id (rows once))).
  { subst once. cbn [rows]. rewrite !replaceRow_keys. exact Hkeys. }
  rewrite (associateTransactionRefundId_linked _ _ data _ _ _ _ _ _ Hfound).
  cbn [snd rows].
  assert (Hin : forall x, In x [u1; u2; u3; u4] -> In x (rows once)).
  { intros x Hx.
    apply (findAllOfGroups_In (Transaction.TransactionGroup transaction)
             (Transaction.TransactionGroup refund)).
    rewrite Hfound. exact Hx. }
  subst u1 u2 u3 u4. rewrite !linked_key, !linked_twice.
  rewrite (replaceRow_present (rows once) (linked data true (Transaction.id t4) t1))
    by (try assumption; apply Hin; cbn [In]; tauto).
  rewrite (replaceRow_present (rows once) (linked data true (Transaction.id t3) t2))
    by (try assumption; apply Hin; cbn [In]; tauto).
  rewrite (replaceRow_present (rows once) (linked data false (Transaction.id t2) t3))
    by (try assumption; apply Hin; cbn [In]; tauto).
  apply replaceRow_present; [assumption | apply Hin; cbn [In]; tauto].
Qed.

(** Linking the sample contribution and its refund twice. *)
Lemma associateTransactionRefundId_idempotent_witness :
  let once :=
    snd (associateTransactionRefundId Sample.credit
           (Sample.row 4%positive TransactionType.CREDIT "g2" None) None Sample.unlinked) in
  rows (snd (associateTransactionRefundId Sample.credit
               (Sample.row 4%positive TransactionType.CREDIT "g2" None) None once))
  = rows once.
Proof.
  apply (associateTransactionRefundId_idempotent Sample.credit
           (Sample.row 4%positive TransactionType.CREDIT "g2" None) None Sample.unlinked
           (Sample.row 1%positive TransactionType.DEBIT "g1" None)
           (Sample.row 2%positive TransactionType.CREDIT "g1" None)
           (Sample.row 3%positive TransactionType.DEBIT "g2" None)
           (Sample.row 4%positive TransactionType.CREDIT "g2" None)).
  - cbn. repeat (constructor; [cbn; intuition discriminate|]). constructor.
  - reflexivity.
Defined.

(** ** Refunding, end to end *)

Section RefundOnce.

Variable netAmount : Transaction.t -> Z.
Variable createDoubleEntry :
  RefundEntry.t -> list Transaction.t -> Js.completion Transaction.t * list Transaction.t.
Variable getPlatformTipTransaction :
  Transaction.t -> list Transaction.t -> option Transaction.t.


(** No other row of the group, and the transaction itself when it is a
    CREDIT, is left without refund: the refund is refused. *)
Lemma createRefundTransaction_refused (x : Transaction.t)
  (refundedPaymentProcessorFee : Z) (data : option Js.object)
  (user : option User.t) (w : Ledger) :
  Transaction.RefundTransactionId x <> None ->
  (forall y, In y (rows w) ->
             Transaction.TransactionGroup y = Transaction.TransactionGroup x ->
             Transaction.RefundTransactionId y <> None) ->
  exists error,
    createRefundTransaction netAmount createDoubleEntry getPlatformTipTransaction
      x refundedPaymentProcessorFee data user w
    = (Js.Throw error, w).
Proof.
  intros Hx Hgroup.
  unfold createRefundTransaction, bind at 1. unfold creditTransactionRefund,
    findCreditTransaction.
  destruct (TransactionType.eqb (Transaction.type x) TransactionType.CREDIT).
  - destruct (Transaction.RefundTransactionId x); [eexists; reflexivity | congruence].
  - destruct (findOtherOfGroup x (rows w)) as [y|] eqn:Hfind; [|eexists; reflexivity].
    apply find_some in Hfind. destruct Hfind as [Hy Hsame].
    apply andb_true_iff in Hsame. destruct Hsame as [Hsame _].
    apply String.eqb_eq in Hsame.
    specialize (Hgroup y Hy Hsame).
    destruct (Transaction.RefundTransactionId y); [eexists; reflexivity | congruence].
Qed.

(** X10.  A transaction is refunded once.  When the transaction has no fees
    on top, its CREDIT row is not refunded yet, and the double entry created
    brings the two groups to four rows, the transaction among them,
    [createRefundTransaction] returns the updated row of the transaction,
    which now carries a [RefundTransactionId]; refunding that row again
    throws, and nothing more is created or saved. *)
Theorem createRefundTransaction_once (transaction c refundTransaction : Transaction.t)
  (refundedPaymentProcessorFee : Z) (data : option Js.object)
  (user : option User.t) (w : Ledger)
  (created : list Transaction.t) (t1 t2 t3 t4 : Transaction.t)
  (Hcredit : creditOfGroup transaction c (rows w))
  (Hfresh : Transaction.RefundTransactionId c = None)
  (Hplain : Js.truthy (Js.optGet (Transaction.data transaction) "isFeesOnTop") = false)
  (Hcreated : createDoubleEntry
                (buildRefund netAmount refundedPaymentProcessorFee data user c) (rows w)
              = (Js.Return refundTransaction, created))
  (Hkeys : NoDup (map Transaction.id created))
  (Hfour : findAllOfGroups (Transaction.TransactionGroup transaction)
                           (Transaction.TransactionGroup refundTransaction) created
           = [t1; t2; t3; t4])
  (Hgiven : In (Transaction.id transaction) (map Transaction.id [t1; t2; t3; t4])) :
  exists returned w',
    createRefundTransaction netAmount createDoubleEntry getPlatformTipTransaction
      transaction refundedPaymentProcessorFee data user w
    = (Js.Return (Some returned), w')
    /\ Transaction.id returned = Transaction.id transaction
    /\ Transaction.RefundTransactionId returned <> None
    /\ forall fee' data' user',
         exists error,
           createRefundTransaction netAmount createDoubleEntry getPlatformTipTransaction
             returned fee' data' user' w'
           = (Js.Throw error, w').
Proof.
  set (g1 := Transaction.TransactionGroup transaction) in *.
  set (g2 := Transaction.TransactionGroup refundTransaction) in *.
  set (w1 := {| rows := created;
                journal := journal w ++
                  [CreateDoubleEntry
                     (buildRefund netAmount refundedPaymentProcessorFee data user c)] |}).
  set (u1 := linked data true (Transaction.id t4) t1).
  set (u2 := linked data true (Transaction.id t3) t2).
  set (u3 := linked data false (Transaction.id t2) t3).
  set (u4 := linked data false (Transaction.id t1) t4).
  destruct (findById_present (Transaction.id transaction) [u1; u2; u3; u4])
    as (returned & Hfound & Hreturned & Hid).
  { subst u1 u2 u3 u4. cbn [map]. rewrite !linked_key. exact Hgiven. }
  assert (Hrun :
    createRefundTransaction netAmount createDoubleEntry getPlatformTipTransaction
      transaction refundedPaymentProcessorFee data user w
    = (Js.Return (Some returned),
       {| rows := replaceRow u4 (replaceRow u3 (replaceRow u2 (replaceRow u1 created)));
          journal := journal w1 ++ [Save (Transaction.id t1); Save (Transaction.id t2);
                                    Save (Transaction.id t3); Save (Transaction.id t4)] |})).
  { unfold createRefundTransaction, bind at 1. unfold creditTransactionRefund.
    rewrite (creditOfGroup_found _ _ _ Hcredit), Hfresh. unfold ret at 1.
    rewrite Hplain. unfold bind at 1. unfold ret at 1. unfold bind at 1.
    unfold Transaction_createDoubleEntry at 1. rewrite Hcreated. fold w1.
    rewrite (associateTransactionRefundId_linked transaction refundTransaction data w1
               t1 t2 t3 t4 [] Hfour).
    fold u1 u2 u3 u4. rewrite Hfound. reflexivity. }
  eexists. eexists. split; [exact Hrun|]. split; [exact Hid|].
  assert (Hlinked : forall x, In x [u1; u2; u3; u4] ->
                              Transaction.RefundTransactionId x <> None).
  { intros x [<- | [<- | [<- | [<- | []]]]]; discriminate. }
  split; [apply Hlinked; exact Hreturned|].
  intros fee' data' user'.
  assert (Hafter :
    findAllOfGroups g1 g2
      (replaceRow u4 (replaceRow u3 (replaceRow u2 (replaceRow u1 created))))
    = [u1; u2; u3; u4]).
  { apply (findAllOfGroups_after_saves _ _ _ t1 t2 t3 t4); try assumption;
      subst u1 u2 u3 u4; try apply linked_key; apply linked_group. }
  apply createRefundTransaction_refused.
  - apply Hlinked. exact Hreturned.
  - cbn [rows]. intros y Hy Hsame. apply Hlinked. rewrite <- Hafter.
    apply findAllOfGroups_complete; [exact Hy|].
    rewrite Hsame. apply (findAllOfGroups_group g1 g2
      (replaceRow u4 (replaceRow u3 (replaceRow u2 (replaceRow u1 created))))).
    rewrite Hafter. exact Hreturned.
Qed.

End RefundOnce.


(** Refunding the sample contribution, then the row that came back. *)
Lemma createRefundTransaction_once_witness :
  exists returned w',
    createRefundTransaction Sample.netAmount Sample.createDoubleEntry Sample.noPlatformTip
      Sample.credit 30 None None Sample.contribution
    = (Js.Return (Some returned), w')
    /\ exists error,
         createRefundTransaction Sample.netAmount Sample.createDoubleEntry
           Sample.noPlatformTip returned 30 None None w'
         = (Js.Throw error, w').
Proof.
  destruct (createRefundTransaction_once Sample.netAmount Sample.createDoubleEntry
              Sample.noPlatformTip Sample.credit Sample.credit
              (Sample.rowOf (buildRefund Sample.netAmount 30 None None Sample.credit)
                 4%positive TransactionType.CREDIT "g2")
              30 None None Sample.contribution
              (snd (Sample.createDoubleEntry
                      (buildRefund Sample.netAmount 30 None None Sample.credit)
                      (rows Sample.contribution)))
              Sample.debit Sample.credit
              (Sample.rowOf (buildRefund Sample.netAmount 30 None None Sample.credit)
                 3%positive TransactionType.DEBIT "g2")
              (Sample.rowOf (buildRefund Sample.netAmount 30 None None Sample.credit)
                 4%positive TransactionType.CREDIT "g2"))
    as (returned & w' & Hrun & _ & _ & Hagain).
  - split; [reflexivity | left; reflexivity].
  - reflexivity.
  - reflexivity.
  - reflexivity.
  - cbn. repeat (constructor; [cbn; intuition discriminate|]). constructor.
  - reflexivity.
  - cbn. tauto.
  - exists returned, w'. split; [exact Hrun | apply Hagain].
Defined.

(** ** Executing an order, further *)

Section Triples.

Variable Env : Type.

Lemma triple_ret {A : Type} (P : Order.t -> Prop) (a : A)
  (Q : Js.completion A -> Order.t -> Prop) :
  (forall o, P o -> Q (Js.Return a) o) -> triple P (ret (S := Exec Env) a) Q.
Proof. intros H s HP. apply H. exact HP. Qed.

Lemma triple_bind {A B : Type} (P : Order.t -> Prop)
  (Q1 : Js.completion A -> Order.t -> Prop) (Q : Js.completion B -> Order.t -> Prop)
  (c : M (Exec Env) A) (k : A -> M (Exec Env) B) :
  triple P c Q1 ->
  (forall a, triple (Q1 (Js.Return a)) (k a) Q) ->
  (forall e o, Q1 (Js.Throw e) o -> Q (Js.Throw e) o) ->
  triple P (bind c k) Q.
Proof.
  intros Hc Hk Hthrow s HP. unfold bind. specialize (Hc s HP).
  destruct (c s) as [[a|e] s']; cbn [fst snd] in *.
  - apply Hk. exact Hc.
  - apply Hthrow. exact Hc.
Qed.

(** A step that keeps [J], then the rest. *)
Lemma triple_then {A B : Type} (J : Order.t -> Prop)
  (Q : Js.completion B -> Order.t -> Prop)
  (c : M (Exec Env) A) (k : A -> M (Exec Env) B) :
  triple J c (fun _ o => J o) ->
  (forall a, triple J (k a) Q) ->
  (forall e o, J o -> Q (Js.Throw e) o) ->
  triple J (bind c k) Q.
Proof. intros Hc Hk Hthrow. apply (triple_bind J (fun _ o => J o)); assumption. Qed.

(** Sequencing under an invariant. *)
Lemma triple_seq {A B : Type} (J : Order.t -> Prop)
  (c : M (Exec Env) A) (k : A -> M (Exec Env) B) :
  triple J c (fun _ o => J o) ->
  (forall a, triple J (k a) (fun _ o => J o)) ->
  triple J (bind c k) (fun _ o => J o).
Proof. intros Hc Hk. apply triple_then; auto. Qed.

Lemma triple_weaken {A : Type} (P P' : Order.t -> Prop)
  (Q Q' : Js.completion A -> Order.t -> Prop) (c : M (Exec Env) A) :
  triple P' c Q' -> (forall o, P o -> P' o) -> (forall r o, Q' r o -> Q r o) ->
  triple P c Q.
Proof. intros Hc HP HQ s Hs. apply HQ, Hc, HP, Hs. Qed.

Lemma triple_inEnv {A : Type} (J : Order.t -> Prop) (c : M Env A) :
  triple J (inEnv Env c) (fun _ o => J o).
Proof.
  intros s HJ. unfold inEnv. destruct (c (env Env s)) as [r e]. exact HJ.
Qed.

Lemma triple_detached (J : Order.t -> Prop) (f : Env -> Env) :
  triple J (detached Env f) (fun _ o => J o).
Proof. intros s HJ. exact HJ. Qed.

Lemma triple_updateOrder (P : Order.t -> Prop) (Q : Js.completion unit -> Order.t -> Prop)
  (f : Env -> Order.t -> Order.t) :
  (forall e o, P o -> Q (Js.Return tt) (f e o)) ->
  triple P (fun s => updateOrder Env (f (env Env s)) s) Q.
Proof. intros H s HP. apply H. exact HP. Qed.

Lemma triple_when (J : Order.t -> Prop) (b : bool) (c : M (Exec Env) unit) :
  (b = true -> triple J c (fun _ o => J o)) ->
  triple J (when b c) (fun _ o => J o).
Proof.
  intros Hc. destruct b; cbn [when]; [apply Hc; reflexivity|].
  apply triple_ret. auto.
Qed.

(** Reading the order, then the rest, which may rely on what was read. *)
Lemma triple_read {B : Type} (J : Order.t -> Prop)
  (Q : Js.completion B -> Order.t -> Prop) (k : Order.t -> M (Exec Env) B) :
  (forall a, triple (fun o => a = o /\ J o) (k a) Q) ->
  triple J (bind (getOrder Env) k) Q.
Proof.
  intros Hk s HJ. unfold bind, getOrder. apply Hk. split; [reflexivity | exact HJ].
Qed.

Lemma triple_forget {A : Type} (J : Order.t -> Prop) (a : Order.t)
  (Q : Js.completion A -> Order.t -> Prop) (c : M (Exec Env) A) :
  triple J c Q -> triple (fun o => a = o /\ J o) c Q.
Proof.
  intros Hc. apply (triple_weaken _ J _ Q); [exact Hc| |auto].
  intros o [_ HJ]. exact HJ.
Qed.

End Triples.

Section SettlementProperties.

Variable Env : Type.
Variable Options : Type.
Variable paymentProviders : string -> option (string -> option (Provider Env Options)).
Variable populate : Order.t -> M Env unit.
Variable validatePlanRequest : Order.t -> M Env unit.
Variable now : Env -> Date.
Variable findOrAddUserWithRole : Id -> Id -> Id -> option Id -> M Env unit.
Variable platformCollectiveId : Id.
Variable subscribeOrUpgradePlan : Order.t -> M Env unit.
Variable isPrepaidBudgetOrder : Order.t -> bool.
Variable createPrepaidPaymentMethod : Transaction.t -> M Env unit.
Variable savePaymentMethod : PaymentMethod.t -> Env -> Env.
Variable sendOrderConfirmedEmail : Order.t -> Transaction.t -> Env -> Env.
Variable sendOrderProcessingEmail : Order.t -> Env -> Env.
Variable sendManualPendingOrderEmail : Order.t -> Env -> Env.
Variable Subscription_create : Order.t -> M Env Id.


(** [createSubscription]: the order is marked active when the subscription
    could be created, and left as it was otherwise. *)
Lemma createSubscription_marks (J : Order.t -> Prop)
  (Q : Js.completion unit -> Order.t -> Prop) :
  (forall o subscription, J o -> Q (Js.Return tt) (Order.markActive subscription o)) ->
  (forall e o, J o -> Q (Js.Throw e) o) ->
  triple J (createSubscription Env Subscription_create) Q.
Proof.
  intros Hactive Hthrow. unfold createSubscription.
  apply triple_read. intros a. apply triple_forget.
  apply triple_then; [apply triple_inEnv | | exact Hthrow]. intros subscription.
  exact (triple_updateOrder Env J Q (fun _ => Order.markActive subscription)
           (fun _ o HJ => Hactive o subscription HJ)).
Qed.

(** The flag [saved] is set on the payment method the order carries. *)
Lemma savePaymentMethod_keeps (J : Order.t -> Prop) (a : Order.t) (b : bool) :
  (forall o, J o ->
             J (Order.set_paymentMethod
                  (PaymentMethod.set_saved true (Order.paymentMethod o)) o)) ->
  triple (fun o => a = o /\ J o)
    (when b
       (bind (updateOrder Env
                (Order.set_paymentMethod
                   (PaymentMethod.set_saved true (Order.paymentMethod a))))
             (fun _ => detached Env
                         (savePaymentMethod
                            (PaymentMethod.set_saved true (Order.paymentMethod a))))))
    (fun _ o' => J o').
Proof.
  intros Hsaved. destruct b; cbn [when].
  - apply (triple_bind Env _ (fun _ o => J o)); [|intros _; apply triple_detached|auto].
    exact (triple_updateOrder Env (fun o => a = o /\ J o) (fun _ o => J o)
             (fun _ => Order.set_paymentMethod
                         (PaymentMethod.set_saved true (Order.paymentMethod a)))
             (fun _ o '(conj Ha HJ) =>
                eq_ind_r (fun a' => J (Order.set_paymentMethod
                                         (PaymentMethod.set_saved true
                                            (Order.paymentMethod a')) o))
                         (Hsaved o HJ) Ha)).
  - apply triple_ret. intros o [_ HJ]. exact HJ.
Qed.

(** The order after a charge: whatever held before, [J] holds once the
    order is marked paid and is kept until the subscription, if any, is
    created; [Q] is what that last step ensures. *)
Lemma settle_charged_to (P J : Order.t -> Prop)
  (Q : Js.completion unit -> Order.t -> Prop) (user : User.t) (o : Order.t)
  (t : Transaction.t) :
  (forall d o', P o' -> J (Order.markPaid d (Js.omit (Order.data o) "paymentIntent") o')) ->
  (forall o', J o' ->
              J (Order.set_paymentMethod
                   (PaymentMethod.set_saved true (Order.paymentMethod o')) o')) ->
  (forall e o', J o' -> Q (Js.Throw e) o') ->
  (forall o3, triple (fun o' => o3 = o' /\ J o')
                (when (recurring o3) (createSubscription Env Subscription_create)) Q) ->
  triple P
    (settle Env now findOrAddUserWithRole platformCollectiveId subscribeOrUpgradePlan
       isPrepaidBudgetOrder createPrepaidPaymentMethod savePaymentMethod
       sendOrderConfirmedEmail sendOrderProcessingEmail sendManualPendingOrderEmail
       Subscription_create user o (Some t))
    Q.
Proof.
  intros Hpaid Hsaved Hthrow Hlast. unfold settle.
  apply (triple_bind Env P (fun _ o' => J o')); [| |exact Hthrow].
  - apply (triple_bind Env P (fun _ o' => J o')); [| |auto].
    + exact (triple_updateOrder Env P (fun _ o' => J o')
               (fun e => Order.markPaid (now e) (Js.omit (Order.data o) "paymentIntent"))
               (fun e o' HP => Hpaid (now e) o' HP)).
    + intros _. apply triple_seq; [apply triple_inEnv|]. intros _.
      apply triple_read. intros o1. apply triple_forget.
      apply triple_seq; [apply triple_when; intros _; apply triple_inEnv|]. intros _.
      apply triple_seq; [apply triple_inEnv|]. intros _.
      apply triple_when; intros _; apply triple_inEnv.
  - intros _. apply triple_read. intros o2.
    apply (triple_bind Env _ (fun _ o' => J o')); [| |exact Hthrow].
    + apply savePaymentMethod_keeps. exact Hsaved.
    + intros _. apply triple_read. intros o3.
      apply (triple_bind Env _ (fun _ o' => o3 = o' /\ J o')).
      * exact (triple_detached Env (fun o' => o3 = o' /\ J o') _).
      * intros _.
        apply (triple_bind Env _ (fun _ o' => o3 = o' /\ J o')).
        -- destruct (Transaction.UsingGiftCardFromCollectiveId t);
             [apply triple_inEnv | apply triple_ret; auto].
        -- intros _. cbn [isSome]. rewrite andb_true_r. apply Hlast.
        -- intros e o' [_ HJ]. apply Hthrow. exact HJ.
      * intros e o' [_ HJ]. apply Hthrow. exact HJ.
Qed.

End SettlementProperties.

Section ExecuteOrderProperties.

Variable Env : Type.
Variable Options : Type.
Variable paymentProviders : string -> option (string -> option (Provider Env Options)).
Variable populate : Order.t -> M Env unit.
Variable validatePlanRequest : Order.t -> M Env unit.
Variable now : Env -> Date.
Variable findOrAddUserWithRole : Id -> Id -> Id -> option Id -> M Env unit.
Variable platformCollectiveId : Id.
Variable subscribeOrUpgradePlan : Order.t -> M Env unit.
Variable isPrepaidBudgetOrder : Order.t -> bool.
Variable createPrepaidPaymentMethod : Transaction.t -> M Env unit.
Variable savePaymentMethod : PaymentMethod.t -> Env -> Env.
Variable sendOrderConfirmedEmail : Order.t -> Transaction.t -> Env -> Env.
Variable sendOrderProcessingEmail : Order.t -> Env -> Env.
Variable sendManualPendingOrderEmail : Order.t -> Env -> Env.
Variable Subscription_create : Order.t -> M Env Id.
Variable noOptions : Options.

Local Abbreviation settleOrder :=
  (settle Env now findOrAddUserWithRole platformCollectiveId subscribeOrUpgradePlan
     isPrepaidBudgetOrder createPrepaidPaymentMethod savePaymentMethod
     sendOrderConfirmedEmail sendOrderProcessingEmail sendManualPendingOrderEmail
     Subscription_create).

Local Abbreviation runOf :=
  (executeOrderOf Env Options paymentProviders populate validatePlanRequest now
     findOrAddUserWithRole platformCollectiveId subscribeOrUpgradePlan
     isPrepaidBudgetOrder createPrepaidPaymentMethod savePaymentMethod
     sendOrderConfirmedEmail sendOrderProcessingEmail sendManualPendingOrderEmail
     Subscription_create).

Local Abbreviation run :=
  (executeOrder Env Options paymentProviders populate validatePlanRequest now
     findOrAddUserWithRole platformCollectiveId subscribeOrUpgradePlan
     isPrepaidBudgetOrder createPrepaidPaymentMethod savePaymentMethod
     sendOrderConfirmedEmail sendOrderProcessingEmail sendManualPendingOrderEmail
     Subscription_create).

Local Abbreviation paymentOf o :=
  {| payment_amount := Order.totalAmount o;
     payment_interval := Order.interval o;
     payment_currency := Order.currency o |}.

Lemma sameTerms_refl (o : Order.t) : sameTerms o o.
Proof. unfold sameTerms. repeat split. Qed.

Lemma get_omit (d : option Js.object) (k : string) :
  Js.get (Js.omit d k) k = Js.Undefined.
Proof.
  destruct d as [fields|]; cbn [Js.omit Js.get]; [|reflexivity].
  induction fields as [|[k0 v0] rest IH]; cbn [filter fst Js.get]; [reflexivity|].
  destruct (String.eqb k0 k) eqn:E; cbn [negb Js.get]; [exact IH|].
  rewrite E. exact IH.
Qed.


(** After a charge, [J] holds when marking the order paid establishes it
    and the later updates keep it. *)
Lemma settle_charged (P J : Order.t -> Prop) (user : User.t) (o : Order.t)
  (t : Transaction.t) :
  (forall d o', P o' -> J (Order.markPaid d (Js.omit (Order.data o) "paymentIntent") o')) ->
  (forall o', J o' ->
              J (Order.set_paymentMethod
                   (PaymentMethod.set_saved true (Order.paymentMethod o')) o')) ->
  (forall o' subscription, J o' -> J (Order.markActive subscription o')) ->
  triple P (settleOrder user o (Some t)) (fun _ o' => J o').
Proof.
  intros Hpaid Hsaved Hactive.
  apply (settle_charged_to Env now findOrAddUserWithRole platformCollectiveId
           subscribeOrUpgradePlan isPrepaidBudgetOrder createPrepaidPaymentMethod
           savePaymentMethod sendOrderConfirmedEmail sendOrderProcessingEmail
           sendManualPendingOrderEmail Subscription_create P J);
    [exact Hpaid | exact Hsaved | auto |].
  intros o3. apply triple_forget. apply triple_when. intros _.
  apply createSubscription_marks; auto.
Qed.

Lemma settle_charged_processed (user : User.t) (o : Order.t) (t : Transaction.t) :
  triple (fun _ => True) (settleOrder user o (Some t)) (fun _ o' => processed o').
Proof.
  apply settle_charged.
  - intros d o' _. unfold processed. cbn [Order.markPaid Order.processedAt Order.status
                                          Order.data Js.optGet].
    rewrite get_omit. repeat split; [discriminate | left; reflexivity].
  - intros o' H. exact H.
  - intros o' subscription (Hat & _ & Hdata). repeat split; [exact Hat | right; reflexivity | exact Hdata].
Qed.


Lemma executeOrderOf_settles (user : User.t) (options : Options) (o : Order.t)
  (e e1 e2 e3 : Env) (transaction : option Transaction.t) :
  Order.processedAt o = None ->
  validatePayment (paymentOf o) = Js.Return tt ->
  populate o e = (Js.Return tt, e1) ->
  validatePlanRequest o e1 = (Js.Return tt, e2) ->
  processOrder Env Options paymentProviders o options e2 = (Js.Return transaction, e3) ->
  runOf user options {| order := o; env := e |}
  = settleOrder user o transaction {| order := o; env := e3 |}.
Proof.
  intros Hnew Hvalid Hpopulate Hplan Hcharge.
  unfold executeOrderOf. unfold bind at 1. unfold getOrder at 1. cbn [order].
  rewrite Hnew, Hvalid.
  unfold bind at 1. unfold inEnv at 1. cbn [env order]. rewrite Hpopulate.
  unfold bind at 1. unfold inEnv at 1. cbn [env order]. rewrite Hplan.
  unfold bind at 1. unfold inEnv at 1. cbn [env order]. rewrite Hcharge.
  reflexivity.
Qed.

Lemma executeOrder_processed (user : argument User.t) (options : Options) (o : Order.t)
  (e : Env) :
  Order.processedAt o <> None ->
  exists error, run user (Instance o) options e = (Js.Throw error, Instance o, e).
Proof.
  intros Hdone. unfold executeOrder. destruct user as [u|]; [|eexists; reflexivity].
  unfold executeOrderOf, bind, getOrder, throw. cbn [order].
  destruct (Order.processedAt o) as [at_|]; [|contradiction].
  eexists. reflexivity.
Qed.



(** X13.  An order that was charged is processed whatever fails afterwards,
    and cannot be charged again: executing it once more is rejected, the
    order and everything else being left as they are. *)
Theorem executeOrder_charged_once (user : User.t) (o : Order.t) (options : Options)
  (e e1 e2 e3 : Env) (t : Transaction.t) :
  Order.processedAt o = None ->
  validatePayment (paymentOf o) = Js.Return tt ->
  populate o e = (Js.Return tt, e1) ->
  validatePlanRequest o e1 = (Js.Return tt, e2) ->
  processOrder Env Options paymentProviders o options e2 = (Js.Return (Some t), e3) ->
  exists r o' e',
    run (Instance user) (Instance o) options e = (r, Instance o', e')
    /\ processed o'
    /\ forall user' options' e'',
        exists error,
          run user' (Instance o') options' e'' = (Js.Throw error, Instance o', e'').
Proof.
  intros Hnew Hvalid Hpopulate Hplan Hcharge. unfold executeOrder at 1.
  rewrite (executeOrderOf_settles user options o e e1 e2 e3 (Some t)
             Hnew Hvalid Hpopulate Hplan Hcharge).
  pose (s := {| order := o; env := e3 |}).
  assert (Hdone : processed (order Env (snd (settleOrder user o (Some t) s))))
    by (apply (settle_charged_processed user o t s); exact I).
  fold s. destruct (settleOrder user o (Some t) s) as [r s']. cbn [snd] in Hdone.
  exists r, (order Env s'), (env Env s').
  split; [reflexivity|]. split; [exact Hdone|].
  intros user' options' e''. apply executeOrder_processed.
  destruct Hdone as [Hat _]. exact Hat.
Qed.

(** X14.  When [executeOrder] resolves after a charge, a recurring order is
    ACTIVE and has a subscription, and a one-time order is PAID and has the
    subscription it had. *)
Theorem executeOrder_resolved_status (user : User.t) (o o' : Order.t)
  (options : Options) (e e1 e2 e3 e' : Env) (t : Transaction.t) :
  Order.processedAt o = None ->
  validatePayment (paymentOf o) = Js.Return tt ->
  populate o e = (Js.Return tt, e1) ->
  validatePlanRequest o e1 = (Js.Return tt, e2) ->
  processOrder Env Options paymentProviders o options e2 = (Js.Return (Some t), e3) ->
  run (Instance user) (Instance o) options e = (Js.Return tt, Instance o', e') ->
  if recurring o
  then Order.status o' = OrderStatus.ACTIVE /\ Order.SubscriptionId o' <> None
  else Order.status o' = OrderStatus.PAID
       /\ Order.SubscriptionId o' = Order.SubscriptionId o.
Proof.
  intros Hnew Hvalid Hpopulate Hplan Hcharge. unfold executeOrder.
  rewrite (executeOrderOf_settles user options o e e1 e2 e3 (Some t)
             Hnew Hvalid Hpopulate Hplan Hcharge).
  pose (s := {| order := o; env := e3 |}).
  pose (J := fun o1 : Order.t =>
               Order.status o1 = OrderStatus.PAID
               /\ Order.SubscriptionId o1 = Order.SubscriptionId o
               /\ Order.interval o1 = Order.interval o).
  pose (Q := fun (r : Js.completion unit) (o1 : Order.t) =>
               r = Js.Return tt ->
               if recurring o
               then Order.status o1 = OrderStatus.ACTIVE /\ Order.SubscriptionId o1 <> None
               else Order.status o1 = OrderStatus.PAID
                    /\ Order.SubscriptionId o1 = Order.SubscriptionId o).
  assert (Hsettled : triple (fun o1 => o1 = o) (settleOrder user o (Some t)) Q).
  { apply (settle_charged_to Env now findOrAddUserWithRole platformCollectiveId
             subscribeOrUpgradePlan isPrepaidBudgetOrder createPrepaidPaymentMethod
             savePaymentMethod sendOrderConfirmedEmail sendOrderProcessingEmail
             sendManualPendingOrderEmail Subscription_create (fun o1 => o1 = o) J).
    - intros d o1 ->. unfold J. repeat split.
    - intros o1 H. exact H.
    - intros error o1 _ Hresolved. discriminate Hresolved.
    - intros o3.
      assert (Hsame : forall o1, o3 = o1 /\ J o1 -> recurring o = recurring o3).
      { intros o1 [-> (_ & _ & Hinterval)]. unfold recurring.
        rewrite Hinterval. reflexivity. }
      destruct (recurring o3) eqn:Hrecurring; cbn [when].
      + apply createSubscription_marks.
        * intros o1 subscription H _. unfold Q. rewrite (Hsame o1 H).
          split; [reflexivity | discriminate].
        * intros error o1 _ Hresolved. discriminate Hresolved.
      + apply triple_ret. intros o1 H _. unfold Q. rewrite (Hsame o1 H).
        destruct H as [_ (Hstatus & Hsubscription & _)]. split; assumption. }
  specialize (Hsettled s eq_refl). fold s.
  destruct (settleOrder user o (Some t) s) as [r s']. cbn [fst snd] in Hsettled.
  intros Hrun. injection Hrun as -> <- _. apply Hsettled. reflexivity.
Qed.


(** X16.  [markAsPaid] charges through the provider of bank transfers as
    soon as the order is valid, whether that provider waits for the money
    or not: an order that does not ask to save its payment method comes out
    processed, with the paid manual payment method on it. *)
Theorem markAsPaid_charges (user : User.t) (this : Order.t) (e e1 e2 e3 : Env)
  (types : string -> option (Provider Env Options)) (p : Provider Env Options)
  (t : Transaction.t) :
  Js.truthy (Js.optGet (Order.data this) "savePaymentMethod") = false ->
  Order.processedAt this = None ->
  validatePayment (paymentOf this) = Js.Return tt ->
  populate (Order.set_paymentMethod manualPaid this) e = (Js.Return tt, e1) ->
  validatePlanRequest (Order.set_paymentMethod manualPaid this) e1 = (Js.Return tt, e2) ->
  paymentProviders "opencollective" = Some types ->
  types "manual" = Some p ->
  provider_processOrder Env Options p (Order.set_paymentMethod manualPaid this)
    noOptions e2 = (Js.Return (Some t), e3) ->
  exists r o' e',
    markAsPaid Env Options paymentProviders populate validatePlanRequest now
      findOrAddUserWithRole platformCollectiveId subscribeOrUpgradePlan
      isPrepaidBudgetOrder createPrepaidPaymentMethod savePaymentMethod
      sendOrderConfirmedEmail sendOrderProcessingEmail sendManualPendingOrderEmail
      Subscription_create noOptions (Instance user) this e
    = (r, Instance o', e')
    /\ processed o'
    /\ PaymentMethod.service (Order.paymentMethod o') = Some "opencollective"
    /\ PaymentMethod.type (Order.paymentMethod o') = Some "manual"
    /\ PaymentMethod.paid (Order.paymentMethod o') = true.
Proof.
  intros _ Hnew Hvalid Hpopulate Hplan Hservice Htype Hcharge.
  set (o := Order.set_paymentMethod manualPaid this) in *.
  assert (Hprocess : processOrder Env Options paymentProviders o noOptions e2
                     = (Js.Return (Some t), e3)).
  { unfold processOrder, findPaymentMethodProvider.
    cbn [o Order.set_paymentMethod Order.paymentMethod manualPaid
         PaymentMethod.service PaymentMethod.type PaymentMethod.paid].
    change (String.eqb "opencollective" EmptyString) with false.
    change (String.eqb "manual" EmptyString) with false. cbn iota.
    rewrite Hservice, Htype. cbn [negb]. rewrite andb_false_r. exact Hcharge. }
  unfold markAsPaid, executeOrder. fold o.
  rewrite (executeOrderOf_settles user noOptions o e e1 e2 e3 (Some t)
             Hnew Hvalid Hpopulate Hplan Hprocess).
  pose (s := {| order := o; env := e3 |}).
  assert (Hdone : processed (order Env (snd (settleOrder user o (Some t) s))))
    by (apply (settle_charged_processed user o t s); exact I).
  assert (Hterms : sameTerms o (order Env (snd (settleOrder user o (Some t) s)))).
  { apply (settle_charged (sameTerms o) (sameTerms o) user o t);
      [intros d o' H; exact H | intros o' H; exact H | intros o' i H; exact H|].
    apply sameTerms_refl. }
  fold s. destruct (settleOrder user o (Some t) s) as [r s']. cbn [snd] in Hdone, Hterms.
  exists r, (order Env s'), (env Env s').
  split; [reflexivity|]. split; [exact Hdone|].
  destruct Hterms as (_ & _ & _ & _ & _ & _ & _ & _ & Hs & Ht & Hp).
  rewrite Hs, Ht, Hp. repeat split.
Qed.

End ExecuteOrderProperties.

Lemma executeOrder_charged_once_witness :
  exists r o' e',
    Sample.executeOrder (Instance Sample.user)
      (Instance (Sample.order Sample.creditCard Sample.collective (Some "month"))) []
    = (r, Instance o', e')
    /\ processed o'
    /\ forall user' options' e'',
        exists error,
          executeOrder Sample.Env unit Sample.paymentProviders
            (fun _ => ret tt) (fun _ => ret tt) (fun _ => "2021-03-02")
            (fun _ _ _ _ => ret tt) 1%positive (fun _ => ret tt) (fun _ => false)
            (fun _ => ret tt) (fun _ e => e) (fun _ _ e => e ++ ["thankyou"])
            (fun _ e => e) (fun _ e => e) (fun _ => ret 99%positive)
            user' (Instance o') options' e''
          = (Js.Throw error, Instance o', e'').
Proof.
  exact (executeOrder_charged_once Sample.Env unit Sample.paymentProviders
           (fun _ => ret tt) (fun _ => ret tt) (fun _ => "2021-03-02")
           (fun _ _ _ _ => ret tt) 1%positive (fun _ => ret tt) (fun _ => false)
           (fun _ => ret tt) (fun _ e => e) (fun _ _ e => e ++ ["thankyou"])
           (fun _ e => e) (fun _ e => e) (fun _ => ret 99%positive)
           Sample.user (Sample.order Sample.creditCard Sample.collective (Some "month"))
           tt [] [] [] ["charge"] Sample.credit
           eq_refl eq_refl eq_refl eq_refl eq_refl).
Defined.

Lemma executeOrder_resolved_status_witness :
  Order.status
    (Order.markActive 99%positive
       (Order.markPaid "2021-03-02" [("platformFeePercent", Js.Number (of_Z 5))]
          (Sample.order Sample.creditCard Sample.collective (Some "month"))))
  = OrderStatus.ACTIVE
  /\ Order.SubscriptionId
       (Order.markActive 99%positive
          (Order.markPaid "2021-03-02" [("platformFeePercent", Js.Number (of_Z 5))]
             (Sample.order Sample.creditCard Sample.collective (Some "month"))))
     <> None.
Proof.
  exact (executeOrder_resolved_status Sample.Env unit Sample.paymentProviders
           (fun _ => ret tt) (fun _ => ret tt) (fun _ => "2021-03-02")
           (fun _ _ _ _ => ret tt) 1%positive (fun _ => ret tt) (fun _ => false)
           (fun _ => ret tt) (fun _ e => e) (fun _ _ e => e ++ ["thankyou"])
           (fun _ e => e) (fun _ e => e) (fun _ => ret 99%positive)
           Sample.user (Sample.order Sample.creditCard Sample.collective (Some "month"))
           (Order.markActive 99%positive
              (Order.markPaid "2021-03-02" [("platformFeePercent", Js.Number (of_Z 5))]
                 (Sample.order Sample.creditCard Sample.collective (Some "month"))))
           tt [] [] [] ["charge"] ["charge"; "thankyou"] Sample.credit
           eq_refl eq_refl eq_refl eq_refl eq_refl eq_refl).
Defined.


Lemma markAsPaid_charges_witness :
  exists r o' e',
    markAsPaid Sample.Env unit Scenario.paymentProviders
      (fun _ => ret tt) (fun _ => ret tt) (fun _ => "2021-03-02")
      (fun _ _ _ _ => ret tt) 1%positive (fun _ => ret tt) (fun _ => false)
      (fun _ => ret tt) (fun _ e => e ++ ["saved"]) (fun _ _ e => e ++ ["thankyou"])
      (fun _ e => e ++ ["processing"]) (fun _ e => e ++ ["pending"])
      (fun _ => ret 99%positive) tt
      (Instance Sample.user)
      (Sample.order Sample.creditCard Sample.collective (Some "month")) []
    = (r, Instance o', e')
    /\ processed o'
    /\ PaymentMethod.service (Order.paymentMethod o') = Some "opencollective"
    /\ PaymentMethod.type (Order.paymentMethod o') = Some "manual"
    /\ PaymentMethod.paid (Order.paymentMethod o') = true.
Proof.
  exact (markAsPaid_charges Sample.Env unit Scenario.paymentProviders
           (fun _ => ret tt) (fun _ => ret tt) (fun _ => "2021-03-02")
           (fun _ _ _ _ => ret tt) 1%positive (fun _ => ret tt) (fun _ => false)
           (fun _ => ret tt) (fun _ e => e ++ ["saved"]) (fun _ _ e => e ++ ["thankyou"])
           (fun _ e => e ++ ["processing"]) (fun _ e => e ++ ["pending"])
           (fun _ => ret 99%positive) tt
           Sample.user (Sample.order Sample.creditCard Sample.collective (Some "month"))
           [] [] [] ["received"]
           (fun type => if String.eqb type "manual"
                        then Some Scenario.manualProvider else None)
           Scenario.manualProvider Sample.credit
           eq_refl eq_refl eq_refl eq_refl eq_refl eq_refl eq_refl eq_refl).
Defined.

(* ------------------------------------------------------------------ *)
(** ** Providers *)

Section ProviderProperties.

Variable Env : Type.
Variable Options : Type.
Variable paymentProviders : string -> option (string -> option (Provider Env Options)).
Variable provider_refundTransaction :
  Provider Env Options ->
  option (Transaction.t -> option User.t -> option string -> M Env (option Transaction.t)).

(** X17.  A transaction loaded without payment method is refunded exactly
    as one paid by bank transfer, when the provider of bank transfers is
    registered. *)
Theorem refundTransaction_manual_by_default (transaction : Transaction.t)
  (pm : PaymentMethod.t) (user : option User.t) (message : option string)
  (types : string -> option (Provider Env Options)) (p : Provider Env Options) :
  paymentProviders "opencollective" = Some types ->
  types "manual" = Some p ->
  PaymentMethod.service pm = Some "opencollective" ->
  PaymentMethod.type pm = Some "manual" ->
  refundTransaction Env Options paymentProviders provider_refundTransaction
    transaction None user message
  = refundTransaction Env Options paymentProviders provider_refundTransaction
      transaction (Some pm) user message.
Proof.
  intros Hservice Htype Hpm_service Hpm_type.
  unfold refundTransaction, refundProvider, findPaymentMethodProvider.
  rewrite Hpm_service, Hpm_type.
  change (String.eqb "opencollective" EmptyString) with false.
  change (String.eqb "manual" EmptyString) with false. cbn iota.
  rewrite Hservice. cbn [Js.deref Js.andThen]. rewrite Htype. reflexivity.
Qed.


(** X19.  [isProvider] and [findPaymentMethodProvider] do not read a missing
    service alike: a payment method without service is looked up under
    opencollective, yet no opencollective name is recognised as its own. *)
Theorem isProvider_without_service (pm : PaymentMethod.t) (type : string) :
  PaymentMethod.service pm = None \/ PaymentMethod.service pm = Some EmptyString ->
  isProvider ("opencollective." ++ type) pm = false
  /\ findPaymentMethodProvider Env Options paymentProviders pm
     = findPaymentMethodProvider Env Options paymentProviders
         {| PaymentMethod.service := Some "opencollective";
            PaymentMethod.type := PaymentMethod.type pm;
            PaymentMethod.paid := PaymentMethod.paid pm;
            PaymentMethod.saved := PaymentMethod.saved pm |}.
Proof.
  intros [Hservice | Hservice].
  - split.
    + unfold isProvider. rewrite Hservice. reflexivity.
    + unfold findPaymentMethodProvider. rewrite Hservice. reflexivity.
  - split.
    + unfold isProvider. rewrite Hservice. reflexivity.
    + unfold findPaymentMethodProvider. rewrite Hservice. reflexivity.
Qed.

End ProviderProperties.

Lemma refundTransaction_manual_by_default_witness :
  refundTransaction Sample.Env unit Scenario.paymentProviders
    Scenario.provider_refundTransaction Sample.credit None (Some Sample.user) None
  = refundTransaction Sample.Env unit Scenario.paymentProviders
      Scenario.provider_refundTransaction Sample.credit (Some Sample.bankTransfer)
      (Some Sample.user) None.
Proof.
  exact (refundTransaction_manual_by_default Sample.Env unit Scenario.paymentProviders
           Scenario.provider_refundTransaction Sample.credit Sample.bankTransfer
           (Some Sample.user) None
           (fun type => if String.eqb type "manual"
                        then Some Scenario.manualProvider else None)
           Scenario.manualProvider eq_refl eq_refl eq_refl eq_refl).
Defined.

Lemma isProvider_without_service_witness :
  isProvider "opencollective.default" Cases.bare = false
  /\ findPaymentMethodProvider Sample.Env unit Scenario.paymentProviders Cases.bare
     = findPaymentMethodProvider Sample.Env unit Scenario.paymentProviders
         {| PaymentMethod.service := Some "opencollective";
            PaymentMethod.type := None;
            PaymentMethod.paid := false;
            PaymentMethod.saved := false |}.
Proof.
  exact (isProvider_without_service Sample.Env unit Scenario.paymentProviders
           Cases.bare "default" (or_introl eq_refl)).
Defined.

(* ------------------------------------------------------------------ *)
(** ** Legacy payment method types, the other way round *)

(** X20.  Whenever a service/type pair has a legacy type, converting that
    type back yields the pair; and the legacy type is never
    [BANK_TRANSFER]. *)
Theorem legacy_type_of_pair (pm : LegacyPaymentMethod.ServiceTypePair)
  (t : LegacyPaymentMethod.PaymentMethodLegacyTypeEnum) :
  LegacyPaymentMethod.getLegacyPaymentMethodType pm = Some t ->
  LegacyPaymentMethod.getServiceTypeFromLegacyPaymentMethodType t = pm
  /\ t <> LegacyPaymentMethod.BANK_TRANSFER.
Proof.
  destruct pm as [s ty].
  destruct s, ty; cbn; intros H; try discriminate H;
    injection H as <-; (split; [reflexivity | discriminate]).
Qed.

Lemma legacy_type_of_pair_witness :
  LegacyPaymentMethod.getServiceTypeFromLegacyPaymentMethodType
    LegacyPaymentMethod.ADDED_FUNDS
  = {| LegacyPaymentMethod.service := LegacyPaymentMethod.SERVICE_OPENCOLLECTIVE;
       LegacyPaymentMethod.type := LegacyPaymentMethod.TYPE_HOST |}
  /\ LegacyPaymentMethod.ADDED_FUNDS <> LegacyPaymentMethod.BANK_TRANSFER.
Proof.
  exact (legacy_type_of_pair
           {| LegacyPaymentMethod.service := LegacyPaymentMethod.SERVICE_OPENCOLLECTIVE;
              LegacyPaymentMethod.type := LegacyPaymentMethod.TYPE_HOST |}
           LegacyPaymentMethod.ADDED_FUNDS eq_refl).
Defined.

(* ------------------------------------------------------------------ *)
(** ** Errors of a credit card charge *)

(** [includes] is containment: [s] includes [sub] exactly when [sub] occurs
    somewhere in [s]. *)
Lemma prefix_app (sub s : string) :
  String.prefix sub s = true <-> exists post, s = (sub ++ post)%string.
Proof.
  revert s. induction sub as [|c sub IH]; intros s; cbn [String.prefix String.append].
  - split; [intros _; exists s; reflexivity | intros _; destruct s; reflexivity].
  - destruct s as [|c' s]; cbn [String.prefix].
    + split; [discriminate | intros [post H]; discriminate H].
    + destruct (Ascii.ascii_dec c c') as [->|Hne].
      * rewrite IH. split; intros [post H]; exists post.
        -- rewrite H. reflexivity.
        -- injection H as H. exact H.
      * split; [discriminate|]. intros [post H]. injection H as Hc _.
        exfalso. apply Hne. symmetry. exact Hc.
Qed.

Lemma includes_spec (s sub : string) :
  Stripe.includes s sub = true <-> exists pre post, s = (pre ++ sub ++ post)%string.
Proof.
  induction s as [|c rest IH]; cbn [Stripe.includes]; rewrite orb_true_iff, prefix_app.
  - split.
    + intros [[post H] | H]; [exists EmptyString, post; exact H | discriminate H].
    + intros (pre & post & H). left. exists post.
      destruct pre as [|c pre]; [exact H | discriminate H].
  - rewrite IH. split.
    + intros [[post H] | (pre & post & H)].
      * exists EmptyString, post. exact H.
      * exists (String c pre), post. rewrite H. reflexivity.
    + intros (pre & post & H). destruct pre as [|c' pre].
      * left. exists post. exact H.
      * right. injection H as _ H. exists pre, post. exact H.
Qed.

Section ChargeErrorProperties.

Variable typeErrorMessage : string.

(** X21.  Whatever [createChargeAndTransactions] throws, the message of
    the error that leaves [processOrder] is one of the nine known messages,
    one of the five rewritten ones or the generic one. *)
Theorem onChargeError_closed (error : Js.exn) :
  In (Stripe.message typeErrorMessage (Stripe.onChargeError typeErrorMessage error))
     (Stripe.knownErrors ++ map snd Stripe.identifiedErrors
        ++ [Stripe.UNKNOWN_ERROR_MSG]).
Proof.
  unfold Stripe.onChargeError.
  destruct (existsb (String.eqb (Stripe.message typeErrorMessage error))
              Stripe.knownErrors) eqn:Hknown.
  - apply in_or_app. left. apply existsb_exists in Hknown.
    destruct Hknown as (m & Hin & Heq). apply String.eqb_eq in Heq.
    rewrite Heq. exact Hin.
  - destruct (List.find _ Stripe.identifiedErrors) as [[key rewritten]|] eqn:Hfind.
    + apply in_or_app. right. apply in_or_app. left.
      apply find_some in Hfind. destruct Hfind as [Hin _].
      exact (in_map snd _ _ Hin).
    + apply in_or_app. right. apply in_or_app. right. left. reflexivity.
Qed.

(** X22.  The check of the known messages is strict: an error with a
    message comes out with the same message exactly when that message is one
    of the nine known ones, or is the generic one already. *)
Theorem onChargeError_unchanged (m : string) :
  Stripe.onChargeError typeErrorMessage (Js.Error m) = Js.Error m
  <-> In m Stripe.knownErrors \/ m = Stripe.UNKNOWN_ERROR_MSG.
Proof.
  unfold Stripe.onChargeError. cbn [Stripe.message]. split.
  - destruct (existsb (String.eqb m) Stripe.knownErrors) eqn:Hknown.
    + intros _. left. apply existsb_exists in Hknown.
      destruct Hknown as (m' & Hin & Heq). apply String.eqb_eq in Heq.
      rewrite Heq. exact Hin.
    + destruct (List.find _ Stripe.identifiedErrors) as [[key rewritten]|] eqn:Hfind.
      * intros H. injection H as ->. exfalso.
        apply find_some in Hfind. destruct Hfind as [Hin Hincludes].
        cbn [Stripe.identifiedErrors In] in Hin.
        repeat (destruct Hin as [Hin | Hin];
                [injection Hin as <- <-; vm_compute in Hincludes, Hknown;
                 first [discriminate Hincludes | discriminate Hknown]|]).
        exact Hin.
      * intros H. injection H as <-. right. reflexivity.
  - intros [Hin | ->].
    + assert (Hknown : existsb (String.eqb m) Stripe.knownErrors = true).
      { apply existsb_exists. exists m. split; [exact Hin | apply String.eqb_refl]. }
      rewrite Hknown. reflexivity.
    + reflexivity.
Qed.

End ChargeErrorProperties.

(* ------------------------------------------------------------------ *)
(** ** Unsubscribe tokens *)

Section UnsubscribeTokenProperties.

Variable emailUnsubscribeSecret : string.
Variable sha512 : string -> string.
Variable md5 : string -> string.

(** X23.  A token generated by either procedure is valid for the email,
    the type and the collective it was generated for, no collective and the
    collective named [any] being the same. *)
Theorem isValidUnsubscribeToken_generated (email type : string)
  (collectiveSlug collectiveSlug' : option string) :
  orElse collectiveSlug "any" = orElse collectiveSlug' "any" ->
  isValidUnsubscribeToken emailUnsubscribeSecret sha512 md5
    (generateUnsubscribeToken emailUnsubscribeSecret email collectiveSlug type sha512)
    email collectiveSlug' type = true
  /\ isValidUnsubscribeToken emailUnsubscribeSecret sha512 md5
       (generateUnsubscribeToken emailUnsubscribeSecret email collectiveSlug type md5)
       email collectiveSlug' type = true.
Proof.
  intros Hslug. unfold isValidUnsubscribeToken, generateUnsubscribeToken.
  rewrite Hslug. split.
  - rewrite String.eqb_refl. reflexivity.
  - rewrite (String.eqb_refl (md5 _)). destruct (String.eqb _ _); reflexivity.
Qed.

End UnsubscribeTokenProperties.

Lemma isValidUnsubscribeToken_generated_witness :
  isValidUnsubscribeToken "secret" (fun s => ("sha512:" ++ s)%string)
    (fun s => ("md5:" ++ s)%string)
    (generateUnsubscribeToken "secret" "user@example.org" None "collective.monthlyreport"
       (fun s => ("sha512:" ++ s)%string))
    "user@example.org" (Some "any") "collective.monthlyreport" = true
  /\ isValidUnsubscribeToken "secret" (fun s => ("sha512:" ++ s)%string)
       (fun s => ("md5:" ++ s)%string)
       (generateUnsubscribeToken "secret" "user@example.org" None "collective.monthlyreport"
          (fun s => ("md5:" ++ s)%string))
       "user@example.org" (Some "any") "collective.monthlyreport" = true.
Proof.
  exact (isValidUnsubscribeToken_generated "secret" (fun s => ("sha512:" ++ s)%string)
           (fun s => ("md5:" ++ s)%string) "user@example.org" "collective.monthlyreport"
           None (Some "any") eq_refl).
Defined.
